(** * cachingproxy: a shallow embedding of [app.py] and its specification

    The development follows [app.py] function by function.

    - A Python [str] is a [string]; a character stands for the code point
      of the same number, so the strings modelled are those whose code
      points are below 256.
    - A function that may raise returns a [res]; an exception is kept with
      its class and the text [str(e)] gives.
    - The Python library functions the program calls ([str] methods,
      [posixpath.join], [posixpath.splitext], [urllib.parse.quote],
      [urllib.parse.urljoin], [urllib.parse.urlparse]) are transcribed from
      CPython 3.11 in the modules [Py], [PosixPath] and [Urllib].
    - What the program only consumes as a capability stays a variable of
      the section that uses it: the table behind
      [mimetypes.guess_extension], the validation of a bracketed host in
      [urllib.parse], the decoding of a cached file, and the HTML parser
      and serializer of BeautifulSoup. The searches and mutations of the
      document tree follow BeautifulSoup 4 in the module [Bs4].
    - The cache is a finite map from paths to files; the network and the
      clock are arguments of the route. *)

From Stdlib Require Import String Ascii List ZArith Bool Lia DecimalString.
From Stdlib Require DecimalPos DecimalZ.
From stdpp Require Import base strings gmap.
Import ListNotations.

Local Open Scope string_scope.
Local Open Scope bool_scope.

(** ** Exceptions and results *)

Inductive exn : Type :=
  | ValueError (msg : string)
  | TypeError (msg : string)
  | AttributeError (msg : string)
  | Exception (msg : string)
  | ExternalError (msg : string).

(** [str(e)], what the handler of [proxy_full_async] shows. *)
Definition str_of_exn (e : exn) : string :=
  match e with
  | ValueError m => m
  | TypeError m => m
  | AttributeError m => m
  | Exception m => m
  | ExternalError m => m
  end.

Inductive res (A : Type) : Type :=
  | Ok (a : A)
  | Raise (e : exn).

Arguments Ok {A} a.
Arguments Raise {A} e.

(** Sequencing: the first exception raised ends the computation. The
    binding is written [x ← r; k]. *)
#[global] Instance res_ret : MRet res := fun A a => Ok a.
#[global] Instance res_bind : MBind res := fun A B k r =>
  match r with
  | Ok a => k a
  | Raise e => Raise e
  end.

(** ** The [str] methods the program uses *)

Module Py.

(** [not s] *)
Definition is_empty (s : string) : bool :=
  match s with EmptyString => true | String _ _ => false end.

(** [s.startswith(p)] *)
Fixpoint startswith (s p : string) : bool :=
  match p with
  | EmptyString => true
  | String c p' =>
      match s with
      | EmptyString => false
      | String d s' => Ascii.eqb d c && startswith s' p'
      end
  end.

(** [s.startswith((p1, ..., pn))] *)
Definition startswith_any (s : string) (ps : list string) : bool :=
  existsb (startswith s) ps.

(** [s.endswith(x)] *)
Fixpoint endswith (s x : string) : bool :=
  String.eqb s x
  || match s with
     | EmptyString => false
     | String _ s' => endswith s' x
     end.

(** [x in s] for strings *)
Fixpoint contains (s x : string) : bool :=
  startswith s x
  || match s with
     | EmptyString => false
     | String _ s' => contains s' x
     end.

(** [c in s] for a character *)
Fixpoint has_char (c : ascii) (s : string) : bool :=
  match s with
  | EmptyString => false
  | String d s' => Ascii.eqb d c || has_char c s'
  end.

(** [s.replace(a, b)] where [a] and [b] are one character long. *)
Fixpoint replace_char (a b : ascii) (s : string) : string :=
  match s with
  | EmptyString => EmptyString
  | String c s' => String (if Ascii.eqb c a then b else c) (replace_char a b s')
  end.

(** [s.replace(a, "")] where [a] is one character long. *)
Fixpoint remove_char (a : ascii) (s : string) : string :=
  match s with
  | EmptyString => EmptyString
  | String c s' => if Ascii.eqb c a then remove_char a s' else String c (remove_char a s')
  end.

(** [s.split(sep)] where [sep] is one character long: never the empty list. *)
Fixpoint split (sep : ascii) (s : string) : list string :=
  match s with
  | EmptyString => [EmptyString]
  | String c s' =>
      if Ascii.eqb c sep then EmptyString :: split sep s'
      else match split sep s' with
           | h :: t => String c h :: t
           | [] => [String c EmptyString]
           end
  end.

(** [sep.join(l)] *)
Fixpoint join (sep : string) (l : list string) : string :=
  match l with
  | [] => EmptyString
  | [x] => x
  | x :: r => x ++ sep ++ join sep r
  end.

(** [c.isspace()] for a code point below 256. *)
Definition isspace (c : ascii) : bool :=
  let n := nat_of_ascii c in
  (Nat.leb 9 n && Nat.leb n 13) || (Nat.leb 28 n && Nat.leb n 32)
  || Nat.eqb n 133 || Nat.eqb n 160.

(** [s.lstrip()] *)
Fixpoint lstrip (s : string) : string :=
  match s with
  | EmptyString => EmptyString
  | String c s' => if isspace c then lstrip s' else s
  end.

(** [s.rstrip()] *)
Fixpoint rstrip (s : string) : string :=
  match s with
  | EmptyString => EmptyString
  | String c s' =>
      let r := rstrip s' in
      if isspace c && is_empty r then EmptyString else String c r
  end.

(** [s.strip()] *)
Definition strip (s : string) : string := rstrip (lstrip s).

(** [c.lower()] for a code point below 256: the ASCII capitals and the
    Latin-1 capitals U+00C0..U+00DE apart from the multiplication sign. *)
Definition lower_char (c : ascii) : ascii :=
  let n := nat_of_ascii c in
  if (Nat.leb 65 n && Nat.leb n 90)
     || (Nat.leb 192 n && Nat.leb n 222 && negb (Nat.eqb n 215))
  then ascii_of_nat (n + 32) else c.

(** [s.lower()] *)
Fixpoint lower (s : string) : string :=
  match s with
  | EmptyString => EmptyString
  | String c s' => String (lower_char c) (lower s')
  end.

(** [s.find(c)] for a character: [-1] when absent. *)
Fixpoint find (c : ascii) (s : string) : Z :=
  match s with
  | EmptyString => (-1)%Z
  | String d s' =>
      if Ascii.eqb d c then 0%Z
      else let i := find c s' in if (i <? 0)%Z then (-1)%Z else (i + 1)%Z
  end.

(** [s.rfind(c)] for a character: [-1] when absent. *)
Fixpoint rfind (c : ascii) (s : string) : Z :=
  match s with
  | EmptyString => (-1)%Z
  | String d s' =>
      let i := rfind c s' in
      if (0 <=? i)%Z then (i + 1)%Z
      else if Ascii.eqb d c then 0%Z else (-1)%Z
  end.

(** [s[:i]] and [s[i:]] for [0 <= i]. *)
Fixpoint take (i : nat) (s : string) : string :=
  match i, s with
  | S i', String c s' => String c (take i' s')
  | _, _ => EmptyString
  end.

Fixpoint drop (i : nat) (s : string) : string :=
  match i, s with
  | S i', String _ s' => drop i' s'
  | _, _ => s
  end.

Definition slice_to (s : string) (i : Z) : string := take (Z.to_nat i) s.
Definition slice_from (s : string) (i : Z) : string := drop (Z.to_nat i) s.

(** [s.find(c, start)] for [0 <= start]. *)
Definition find_from (c : ascii) (s : string) (start : Z) : Z :=
  if (Z.of_nat (String.length s) <? start)%Z then (-1)%Z
  else let i := find c (slice_from s start) in
       if (i <? 0)%Z then (-1)%Z else (start + i)%Z.

End Py.

(** More [str] methods, used by the library functions below. *)
Module PyStr.

(** [s.lstrip(chars)], [s.rstrip(chars)] and [s.strip(chars)], the set of
    characters given as a predicate. *)
Fixpoint lstrip_by (f : ascii -> bool) (s : string) : string :=
  match s with
  | EmptyString => EmptyString
  | String c s' => if f c then lstrip_by f s' else s
  end.

Fixpoint rstrip_by (f : ascii -> bool) (s : string) : string :=
  match s with
  | EmptyString => EmptyString
  | String c s' =>
      let r := rstrip_by f s' in
      if f c && Py.is_empty r then EmptyString else String c r
  end.

Definition strip_by (f : ascii -> bool) (s : string) : string :=
  rstrip_by f (lstrip_by f s).

(** [s[i:j]] for [0 <= i <= j]. *)
Definition slice (s : string) (i j : Z) : string :=
  Py.take (Z.to_nat (j - i)) (Py.drop (Z.to_nat i) s).

(** [s.partition(c)]: the text before the first [c], whether [c] was
    found, and the text after it. *)
Definition partition (c : ascii) (s : string) : string * bool * string :=
  let i := Py.find c s in
  if (i <? 0)%Z then (s, false, EmptyString)
  else (Py.slice_to s i, true, Py.slice_from s (i + 1)).

(** [s.rpartition(c)[2]]: the text after the last [c], all of [s] when
    there is none. *)
Definition rpartition_tail (c : ascii) (s : string) : string :=
  let i := Py.rfind c s in
  if (i <? 0)%Z then s else Py.slice_from s (i + 1).

(** [s.split(c, 1)] when [c in s]. *)
Definition split_once (c : ascii) (s : string) : string * string :=
  let i := Py.find c s in (Py.slice_to s i, Py.slice_from s (i + 1)).

(** [s in l] for a list of strings. *)
Definition mem (s : string) (l : list string) : bool :=
  existsb (String.eqb s) l.

End PyStr.

(** ** [posixpath]: [os.path.join] and [os.path.splitext] *)

Module PosixPath.

(** One turn of the loop of [join]. *)
Definition join_step (path b : string) : string :=
  if Py.startswith b "/" then b
  else if Py.is_empty path || Py.endswith path "/" then path ++ b
  else path ++ "/" ++ b.

(** [os.path.join(a, *p)] *)
Definition join (a : string) (p : list string) : string :=
  fold_left join_step p a.

(** The [while] loop of [genericpath._splitext]: [Some] is its [return],
    [None] its normal end; [n] bounds the turns left. *)
Fixpoint splitext_loop (p : string) (dotIndex filenameIndex : Z) (n : nat)
  : option (string * string) :=
  match n with
  | O => None
  | S n' =>
      if negb (String.eqb (PyStr.slice p filenameIndex (filenameIndex + 1)) ".")
      then Some (Py.slice_to p dotIndex, Py.slice_from p dotIndex)
      else splitext_loop p dotIndex (filenameIndex + 1) n'
  end.

(** [os.path.splitext(p)] *)
Definition splitext (p : string) : string * string :=
  let sepIndex := Py.rfind "/" p in
  let dotIndex := Py.rfind "." p in
  if (sepIndex <? dotIndex)%Z then
    let filenameIndex := (sepIndex + 1)%Z in
    match splitext_loop p dotIndex filenameIndex
            (Z.to_nat (dotIndex - filenameIndex)) with
    | Some r => r
    | None => (p, EmptyString)
    end
  else (p, EmptyString).

End PosixPath.

(** ** [urllib.parse]: [quote], [urlparse] and [urljoin] *)

Module Urllib.

Definition uses_relative : list string :=
  [""; "ftp"; "http"; "gopher"; "nntp"; "imap"; "wais"; "file"; "https";
   "shttp"; "mms"; "prospero"; "rtsp"; "rtspu"; "sftp"; "svn"; "svn+ssh";
   "ws"; "wss"].

Definition uses_netloc : list string :=
  [""; "ftp"; "http"; "gopher"; "nntp"; "telnet"; "imap"; "wais"; "file";
   "mms"; "https"; "shttp"; "snews"; "prospero"; "rtsp"; "rtspu"; "rsync";
   "svn"; "svn+ssh"; "sftp"; "nfs"; "git"; "git+ssh"; "ws"; "wss"].

Definition uses_params : list string :=
  [""; "ftp"; "hdl"; "prospero"; "http"; "imap"; "https"; "shttp"; "rtsp";
   "rtspu"; "sip"; "sips"; "mms"; "sftp"; "tel"].

Definition scheme_chars : string :=
  "abcdefghijklmnopqrstuvwxyzABCDEFGHIJKLMNOPQRSTUVWXYZ0123456789+-.".

(** Membership in [_WHATWG_C0_CONTROL_OR_SPACE]. *)
Definition c0_control_or_space (c : ascii) : bool :=
  Nat.leb (nat_of_ascii c) 32.

(** [_UNSAFE_URL_BYTES_TO_REMOVE]: tab, carriage return, line feed. *)
Definition unsafe_url_bytes : list ascii :=
  [ascii_of_nat 9; ascii_of_nat 13; ascii_of_nat 10].

Definition remove_unsafe (s : string) : string :=
  fold_left (fun acc b => Py.remove_char b acc) unsafe_url_bytes s.

(** [c.isascii() and c.isalpha()] *)
Definition ascii_alpha (c : ascii) : bool :=
  let n := nat_of_ascii c in
  (Nat.leb 65 n && Nat.leb n 90) || (Nat.leb 97 n && Nat.leb n 122).

(** The [for ... else] over [url[:i]]: no character outside [scheme_chars]. *)
Fixpoint all_scheme_chars (s : string) : bool :=
  match s with
  | EmptyString => true
  | String c s' => Py.has_char c scheme_chars && all_scheme_chars s'
  end.

Record SplitResult : Type := mkSplit {
  s_scheme : string; s_netloc : string; s_path : string;
  s_query : string; s_fragment : string }.

Record ParseResult : Type := mkParse {
  scheme : string; netloc : string; path : string;
  params : string; query : string; fragment : string }.

(** [_splitnetloc(url, start)] *)
Definition splitnetloc (url : string) (start : Z) : string * string :=
  let delim := Z.of_nat (String.length url) in
  let delim :=
    fold_left
      (fun delim c =>
         let wdelim := Py.find_from c url start in
         if (0 <=? wdelim)%Z then Z.min delim wdelim else delim)
      ["/"%char; "?"%char; "#"%char] delim in
  (PyStr.slice url start delim, Py.slice_from url delim).

Section HostCheck.

(** [_check_bracketed_host(hostname)]: the validation of an IPvFuture or
    IPv6 literal, done with [re] and [ipaddress]; it returns or raises. *)
Variable check_bracketed_host : string -> res unit.

(** [_check_bracketed_netloc(netloc)] *)
Definition check_bracketed_netloc (netloc : string) : res unit :=
  let hostname_and_port := PyStr.rpartition_tail "@" netloc in
  let '(before_bracket, have_open_br, bracketed) :=
    PyStr.partition "[" hostname_and_port in
  if have_open_br then
    if negb (Py.is_empty before_bracket) then
      Raise (ValueError "Invalid IPv6 URL")
    else
      let '(hostname, _, port) := PyStr.partition "]" bracketed in
      if negb (Py.is_empty port) && negb (Py.startswith port ":") then
        Raise (ValueError "Invalid IPv6 URL")
      else check_bracketed_host hostname
  else
    let '(hostname, _, _) := PyStr.partition ":" hostname_and_port in
    check_bracketed_host hostname.

(** [urlsplit(url, scheme)]. [_checknetloc] is left out: it raises only
    when NFKC normalization of the netloc brings in one of [/?#@:], which
    no code point below 256 does. *)
Definition urlsplit (url scheme : string) : res SplitResult :=
  let url := PyStr.lstrip_by c0_control_or_space url in
  let scheme := PyStr.strip_by c0_control_or_space scheme in
  let url := remove_unsafe url in
  let scheme := remove_unsafe scheme in
  let i := Py.find ":" url in
  let '(scheme, url) :=
    if (0 <? i)%Z
       && match url with
          | String c _ => ascii_alpha c
          | EmptyString => false
          end
       && all_scheme_chars (Py.slice_to url i)
    then (Py.lower (Py.slice_to url i), Py.slice_from url (i + 1))
    else (scheme, url) in
  '(netloc, url) ←
    (if String.eqb (Py.slice_to url 2) "//" then
       let '(netloc, url) := splitnetloc url 2 in
       let lb := Py.has_char "[" netloc in
       let rb := Py.has_char "]" netloc in
       if (lb && negb rb) || (rb && negb lb) then
         Raise (ValueError "Invalid IPv6 URL")
       else
         _ ← (if lb && rb then check_bracketed_netloc netloc else Ok tt);
         Ok (netloc, url)
     else Ok (EmptyString, url));
  let '(url, fragment) :=
    if Py.has_char "#" url then PyStr.split_once "#" url
    else (url, EmptyString) in
  let '(url, query) :=
    if Py.has_char "?" url then PyStr.split_once "?" url
    else (url, EmptyString) in
  Ok (mkSplit scheme netloc url query fragment).

(** [_splitparams(url)] *)
Definition splitparams (url : string) : string * string :=
  if Py.has_char "/" url then
    let i := Py.find_from ";" url (Py.rfind "/" url) in
    if (i <? 0)%Z then (url, EmptyString)
    else (Py.slice_to url i, Py.slice_from url (i + 1))
  else
    let i := Py.find ";" url in
    (Py.slice_to url i, Py.slice_from url (i + 1)).

(** [urlparse(url, scheme)] *)
Definition urlparse (url scheme : string) : res ParseResult :=
  r ← urlsplit url scheme;
  let url := s_path r in
  let '(url, params) :=
    if PyStr.mem (s_scheme r) uses_params && Py.has_char ";" url
    then splitparams url
    else (url, EmptyString) in
  Ok (mkParse (s_scheme r) (s_netloc r) url params (s_query r) (s_fragment r)).

(** [urlunsplit((scheme, netloc, url, query, fragment))] *)
Definition urlunsplit (scheme netloc url query fragment : string) : string :=
  let url :=
    if negb (Py.is_empty netloc)
       || (negb (Py.is_empty scheme) && PyStr.mem scheme uses_netloc
           && negb (String.eqb (Py.slice_to url 2) "//"))
    then
      let url :=
        if negb (Py.is_empty url) && negb (String.eqb (Py.slice_to url 1) "/")
        then "/" ++ url else url in
      "//" ++ netloc ++ url
    else url in
  let url := if negb (Py.is_empty scheme) then scheme ++ ":" ++ url else url in
  let url := if negb (Py.is_empty query) then url ++ "?" ++ query else url in
  let url := if negb (Py.is_empty fragment) then url ++ "#" ++ fragment else url in
  url.

(** [urlunparse((scheme, netloc, url, params, query, fragment))] *)
Definition urlunparse (scheme netloc url params query fragment : string) : string :=
  let url := if negb (Py.is_empty params) then url ++ ";" ++ params else url in
  urlunsplit scheme netloc url query fragment.

(** [segments[1:-1] = filter(None, segments[1:-1])] *)
Definition filter_middle (segments : list string) : list string :=
  match segments with
  | [] => []
  | first :: rest =>
      match rest with
      | [] => [first]
      | _ :: _ =>
          (first :: List.filter (fun s => negb (Py.is_empty s)) (removelast rest)
                 ++ [List.last rest EmptyString])%list
      end
  end.

(** The loop of [urljoin] over [segments]; [resolved_path.pop()] on the
    empty list raises [IndexError], which the loop passes over. *)
Definition resolve_step (resolved_path : list string) (seg : string) : list string :=
  if String.eqb seg ".." then removelast resolved_path
  else if String.eqb seg "." then resolved_path
  else (resolved_path ++ [seg])%list.

(** [urljoin(base, url)] *)
Definition urljoin (base url : string) : res string :=
  if Py.is_empty base then Ok url
  else if Py.is_empty url then Ok base
  else
    b ← urlparse base EmptyString;
    u ← urlparse url (scheme b);
    if negb (String.eqb (scheme u) (scheme b))
       || negb (PyStr.mem (scheme u) uses_relative)
    then Ok url
    else if PyStr.mem (scheme u) uses_netloc && negb (Py.is_empty (netloc u))
    then Ok (urlunparse (scheme u) (netloc u) (path u) (params u) (query u) (fragment u))
    else
      let netloc_ :=
        if PyStr.mem (scheme u) uses_netloc then netloc b else netloc u in
      if Py.is_empty (path u) && Py.is_empty (params u) then
        let query_ := if Py.is_empty (query u) then query b else query u in
        Ok (urlunparse (scheme u) netloc_ (path b) (params b) query_ (fragment u))
      else
        let base_parts := Py.split "/" (path b) in
        let base_parts :=
          if negb (String.eqb (List.last base_parts EmptyString) EmptyString)
          then removelast base_parts else base_parts in
        let segments :=
          if String.eqb (Py.slice_to (path u) 1) "/"
          then Py.split "/" (path u)
          else filter_middle (base_parts ++ Py.split "/" (path u))%list in
        let resolved_path := fold_left resolve_step segments [] in
        let resolved_path :=
          if PyStr.mem (List.last segments EmptyString) ["."; ".."]
          then (resolved_path ++ [EmptyString])%list else resolved_path in
        let joined := Py.join "/" resolved_path in
        Ok (urlunparse (scheme u) netloc_
              (if Py.is_empty joined then "/" else joined)
              (params u) (query u) (fragment u)).

End HostCheck.

(** [_ALWAYS_SAFE] together with the default [safe='/'] of [quote]. *)
Definition safe_byte (b : ascii) : bool :=
  Py.has_char b
    "ABCDEFGHIJKLMNOPQRSTUVWXYZabcdefghijklmnopqrstuvwxyz0123456789_.-~/".

(** [string.encode('utf-8')] for one code point below 256. *)
Definition utf8_char (c : ascii) : list ascii :=
  let n := nat_of_ascii c in
  if Nat.ltb n 128 then [c]
  else [ascii_of_nat (192 + n / 64); ascii_of_nat (128 + n mod 64)].

Definition hex_digit (n : nat) : ascii :=
  if Nat.ltb n 10 then ascii_of_nat (48 + n) else ascii_of_nat (55 + n).

(** [_Quoter.__missing__]: [chr(b) if b in self.safe else '%{:02X}'.format(b)] *)
Definition quote_byte (b : ascii) : string :=
  if safe_byte b then String b EmptyString
  else
    let n := nat_of_ascii b in
    String "%" (String (hex_digit (n / 16)) (String (hex_digit (n mod 16)) EmptyString)).

(** [quote(string)]: the string is encoded in UTF-8 and every byte quoted. *)
Fixpoint quote (s : string) : string :=
  match s with
  | EmptyString => EmptyString
  | String c s' =>
      fold_right (fun b acc => quote_byte b ++ acc) (quote s') (utf8_char c)
  end.

End Urllib.

(** ** The document tree of BeautifulSoup *)

(** The value of an attribute: a string, or for the multi-valued attributes
    ([class], [rel], ...) the list of its whitespace-separated values. *)
Inductive attr_value : Type :=
  | AStr (s : string)
  | AList (l : list string).

(** [tag.attrs]: a dict, kept in insertion order. *)
Definition attrs_t : Type := list (string * attr_value).

#[local] Set Warnings "-register-all".

Inductive node : Type :=
  | Tag (name : string) (attrs : attrs_t) (children : list node)
  | NavigableString (s : string).

(** The children of the [BeautifulSoup] object. *)
Abbreviation soup_t := (list node).

Module Bs4.

(** [attrs.get(key)] *)
Fixpoint get (key : string) (attrs : attrs_t) : option attr_value :=
  match attrs with
  | [] => None
  | (k, v) :: r => if String.eqb k key then Some v else get key r
  end.

(** [attrs[key] = v]: the value is replaced where the key stands, or the
    key is added at the end. *)
Fixpoint set (key : string) (v : attr_value) (attrs : attrs_t) : attrs_t :=
  match attrs with
  | [] => [(key, v)]
  | (k, w) :: r =>
      if String.eqb k key then (k, v) :: r else (k, w) :: set key v r
  end.

(** Truth value of what [tag.get(key)] returns. *)
Definition truthy (o : option attr_value) : bool :=
  match o with
  | None => false
  | Some (AStr s) => negb (Py.is_empty s)
  | Some (AList l) => match l with [] => false | _ :: _ => true end
  end.

(** [tag[key] = v] *)
Definition set_attr (key : string) (v : attr_value) (n : node) : node :=
  match n with
  | Tag name attrs ch => Tag name (set key v attrs) ch
  | NavigableString _ => n
  end.

(** [tag.insert(0, child)] and [tag.append(child)] for a detached child. *)
Definition insert0 (child : node) (n : node) : node :=
  match n with
  | Tag name attrs ch => Tag name attrs (child :: ch)
  | NavigableString _ => n
  end.

Definition append (child : node) (n : node) : node :=
  match n with
  | Tag name attrs ch => Tag name attrs (ch ++ [child])%list
  | NavigableString _ => n
  end.

(** [soup.new_tag(name)] *)
Definition new_tag (name : string) : node := Tag name [] [].

(** How a search matches an attribute value against a string: a string
    value must be equal; a list value matches when one of its items is
    equal, or when the items joined by one space are. *)
Definition matches_str (v : attr_value) (m : string) : bool :=
  match v with
  | AStr s => String.eqb s m
  | AList l => existsb (fun item => String.eqb item m) l
               || String.eqb (Py.join " " l) m
  end.

(** The search criteria the program uses: a tag name, attributes that must
    be present ([attr=True]) and attributes that must match a string. *)
Record criteria : Type := mkCriteria {
  c_name : string;
  c_present : list string;
  c_equal : list (string * string) }.

Definition matches (c : criteria) (n : node) : bool :=
  match n with
  | Tag name attrs _ =>
      String.eqb name (c_name c)
      && forallb (fun k => match get k attrs with Some _ => true | None => false end)
           (c_present c)
      && forallb (fun km => match get (fst km) attrs with
                            | Some v => matches_str v (snd km)
                            | None => false
                            end)
           (c_equal c)
  | NavigableString _ => false
  end.

Section Traversal.

Context {A B : Type}.
Variable g : A -> option B.

(** The first element of a list on which [g] answers, with its index. *)
Fixpoint first_some (i : nat) (l : list A) : option (nat * B) :=
  match l with
  | [] => None
  | x :: r =>
      match g x with
      | Some b => Some (i, b)
      | None => first_some (S i) r
      end
  end.

Variable h : A -> res B.

(** The results of [h] on a list, up to the first exception. *)
Fixpoint mapM (l : list A) : res (list B) :=
  match l with
  | [] => Ok []
  | x :: r => y ← h x; ys ← mapM r; Ok (y :: ys)
  end.

End Traversal.

(** A tag is designated by its path: the indices to follow from the root
    through the lists of children. Python holds the object itself; the path
    stands for its identity as long as no node is inserted before it. *)
Definition path_t : Type := list nat.

(** The path, inside [n], of the first node in document order that
    matches; [[]] is [n] itself. *)
Fixpoint find_in (c : criteria) (n : node) : option path_t :=
  match n with
  | Tag _ _ ch =>
      if matches c n then Some []
      else match first_some (find_in c) 0 ch with
           | Some (i, p) => Some (i :: p)
           | None => None
           end
  | NavigableString _ => None
  end.

(** [soup.find(...)]: the search goes through the descendants. *)
Definition find (c : criteria) (soup : soup_t) : option path_t :=
  match first_some (find_in c) 0 soup with
  | Some (i, p) => Some (i :: p)
  | None => None
  end.

(** The node a path designates. *)
Fixpoint node_at (p : path_t) (n : node) : option node :=
  match p with
  | [] => Some n
  | i :: p' =>
      match n with
      | Tag _ _ ch =>
          match ch !! i with
          | Some c => node_at p' c
          | None => None
          end
      | NavigableString _ => None
      end
  end.

Definition soup_at (p : path_t) (soup : soup_t) : option node :=
  match p with
  | [] => None
  | i :: p' =>
      match soup !! i with
      | Some c => node_at p' c
      | None => None
      end
  end.

(** A mutation of the object a path designates. *)
Fixpoint update_in (p : path_t) (f : node -> node) (n : node) : node :=
  match p with
  | [] => f n
  | i :: p' =>
      match n with
      | Tag name attrs ch => Tag name attrs (alter (update_in p' f) i ch)
      | NavigableString _ => n
      end
  end.

Definition update (p : path_t) (f : node -> node) (soup : soup_t) : soup_t :=
  match p with
  | [] => soup
  | i :: p' => alter (update_in p' f) i soup
  end.

(** A loop [for tag in soup.find_all(...): tag[...] = ...]: [f] is the
    body, given the name and the attributes of every tag in document order;
    it answers the new attributes or raises. *)
Fixpoint map_tags (f : string -> attrs_t -> res attrs_t) (n : node) : res node :=
  match n with
  | Tag name attrs ch =>
      attrs' ← f name attrs;
      ch' ← mapM (map_tags f) ch;
      Ok (Tag name attrs' ch')
  | NavigableString _ => Ok n
  end.

(** The number of tags of a given name. *)
Fixpoint count_in (name : string) (n : node) : nat :=
  match n with
  | Tag nm _ ch =>
      (if String.eqb nm name then 1 else 0)
      + list_sum (List.map (count_in name) ch)
  | NavigableString _ => 0
  end.

Definition count (name : string) (soup : soup_t) : nat :=
  list_sum (List.map (count_in name) soup).

(** The same change made to the attributes of every tag. *)
Fixpoint map_attrs (g : attrs_t -> attrs_t) (n : node) : node :=
  match n with
  | Tag name attrs ch => Tag name (g attrs) (List.map (map_attrs g) ch)
  | NavigableString _ => n
  end.

(** A document without its attributes: the names of the tags, their
    nesting and the strings between them. *)
Definition skeleton (n : node) : node := map_attrs (fun _ => []) n.

(** [del attrs[key]] *)
Fixpoint remove (key : string) (attrs : attrs_t) : attrs_t :=
  match attrs with
  | [] => []
  | (k, v) :: r =>
      if String.eqb k key then remove key r else (k, v) :: remove key r
  end.

End Bs4.

(** ** [app.py] *)

Definition PREFIX : string := "/cachingproxy".
Definition ALLOW_URLS : list string :=
  ["http://example.com"; "https://adventofcode.com"].
Definition ONE_MINUTE_IN_SECONDS : Z := 60.
Definition ONE_HOUR_IN_SECONDS : Z := 60 * ONE_MINUTE_IN_SECONDS.
Definition ONE_DAY_IN_SECONDS : Z := 24 * ONE_HOUR_IN_SECONDS.
Definition ONE_YEAR_IN_SECONDS : Z := 365 * ONE_DAY_IN_SECONDS.
Definition DEFAULT_CACHE_EXPIRY : Z := ONE_YEAR_IN_SECONDS.

(** [readable(num_seconds)]; the f-string writes the integer in decimal. *)
Definition readable (num_seconds : Z) : string :=
  if (num_seconds =? ONE_DAY_IN_SECONDS)%Z then "one day"
  else if (num_seconds =? ONE_YEAR_IN_SECONDS)%Z then "one year"
  else NilZero.string_of_int (Z.to_int num_seconds) ++ " seconds".

(** [encode_url(url)]: [url.replace("/", "$").replace(":", "#")] *)
Definition encode_url (url : string) : string :=
  Py.replace_char ":" "#" (Py.replace_char "/" "$" url).

(** The allow-list loop of [proxy_full_async]; [allowed] is the variable of
    that name before the turns that remain, the answer is its value after
    the loop. *)
Fixpoint allow_loop (url : string) (allow_urls : list string) (allowed : bool) : bool :=
  match allow_urls with
  | [] => allowed
  | allowed_url :: rest =>
      (* allowed = False *)
      if Py.startswith url allowed_url
      then true (* allowed = True; break *)
      else allow_loop url rest false
  end.

(** [allowed = True] and the loop, for a configured list. *)
Definition is_allowed (url : string) (allow_urls : list string) : bool :=
  allow_loop url allow_urls true.

(** A file of the cache: its bytes and its modification time in seconds.
    The store holds the files by path; directories are not part of it, and
    opening a path of the store does not fail. *)
Record file : Type := mkFile { f_content : string; f_mtime : Z }.

(** [bytes] of a text written with [encoding="utf-8"]. *)
Fixpoint encode_utf8 (s : string) : string :=
  match s with
  | EmptyString => EmptyString
  | String c s' =>
      fold_right (fun b acc => String b acc) (encode_utf8 s') (Urllib.utf8_char c)
  end.

(** What the route answers. *)
Inductive response : Type :=
  | Redirect_index
      (* redirect(url_for("index")) *)
  | Body (content : string)
      (* a str returned from the route *)
  | Response (content : string) (content_type : string)
      (* Response(content, content_type=...) *)
  | ErrorStatusPage (url : string) (status_code : Z)
      (* the error template rendered with url and status_code *)
  | ErrorPage (url : string) (error : string).
      (* the error template rendered with url and error *)

(** What [session.get] hands back: the status, the [content-type] header
    when there is one, and what [response.read()] and [response.text()]
    give, each of which may raise. *)
Record http_response : Type := mkHttp {
  status : Z;
  content_type_header : option string;
  read : res string;
  text : res string }.

Section App.

(** [CACHE_DIR], the [cache] directory next to the program. *)
Variable CACHE_DIR : string.
(** [mimetypes.guess_extension] *)
Variable guess_extension : string -> option string.
(** [urllib.parse._check_bracketed_host] *)
Variable check_bracketed_host : string -> res unit.
(** Decoding of a file read with [encoding="utf-8", errors="replace"]. *)
Variable decode_utf8_replace : string -> string.
(** [BeautifulSoup(html_content, "html.parser")] and [str(soup)] *)
Variable parse_html : string -> res soup_t.
Variable str_soup : soup_t -> string.

(** [get_cache_path(url, content_type=None)]. The md5 digest computed
    first is overwritten before any use. Creating the host directory is
    outside the store modelled. *)
Definition get_cache_path (url : string) (content_type : option string) : res string :=
  parsed ← Urllib.urlparse check_bracketed_host url EmptyString;
  let url_hash := encode_url url in
  let ext :=
    match content_type with
    | Some ct =>
        if negb (Py.is_empty ct) && Py.contains ct "image" then
          let ext :=
            match guess_extension ct with
            | Some e =>
                if Py.is_empty e
                then snd (PosixPath.splitext (Urllib.path parsed))
                else e
            | None => snd (PosixPath.splitext (Urllib.path parsed))
            end in
          if Py.is_empty ext then ".bin" else ext
        else ".html"
    | None => ".html"
    end in
  Ok (PosixPath.join CACHE_DIR [Urllib.netloc parsed; url_hash ++ ext]).

(** [is_cached(url, max_age)], given the store and [time.time()]. *)
Definition is_cached (fs : gmap string file) (now : Z) (url : string) (max_age : Z)
  : res bool :=
  cache_path ← get_cache_path url None;
  match fs !! cache_path with
  | Some f =>
      if (now - f_mtime f <? max_age)%Z then Ok true else Ok false
  | None => Ok false
  end.

(** [read_cache(cache_path, binary)] *)
Definition read_cache (fs : gmap string file) (cache_path : string) (binary : bool)
  : res string :=
  match fs !! cache_path with
  | Some f =>
      if binary then Ok (f_content f) else Ok (decode_utf8_replace (f_content f))
  | None => Raise (ExternalError "FileNotFoundError")
  end.

(** [write_cache(cache_path, content, binary)]; the file written carries
    the time of the request. *)
Definition write_cache (fs : gmap string file) (now : Z)
    (cache_path content : string) (binary : bool) : gmap string file :=
  <[cache_path := mkFile (if binary then content else encode_utf8 content) now]> fs.

(** [rewrite_url(url, base_url)] *)
Definition rewrite_url (url base_url : string) : res string :=
  if Py.is_empty url then Ok url
  else if Py.startswith_any url ["javascript:"; "data:"; "#"; "mailto:"] then Ok url
  else if negb (Py.startswith_any url ["http://"; "https://"]) then
    absolute ← Urllib.urljoin check_bracketed_host base_url url;
    Ok (PREFIX ++ "/proxy?url=" ++ Urllib.quote absolute)
  else Ok (PREFIX ++ "/proxy?url=" ++ Urllib.quote url).

(** [rewrite_url] on the value of an attribute. On a list, [not url] holds
    of the empty one, and [startswith] does not exist. *)
Definition rewrite_value (v : attr_value) (base_url : string) : res attr_value :=
  match v with
  | AStr s => r ← rewrite_url s base_url; Ok (AStr r)
  | AList [] => Ok v
  | AList (_ :: _) =>
      Raise (AttributeError "'list' object has no attribute 'startswith'")
  end.

(** [tag[key] = rewrite_url(tag[key], base_url)] *)
Definition rewrite_attr (key : string) (attrs : attrs_t) (base_url : string)
  : res attrs_t :=
  match Bs4.get key attrs with
  | Some v => r ← rewrite_value v base_url; Ok (Bs4.set key r attrs)
  | None => Raise (ExternalError "KeyError")
  end.

(** The body of the loop over [img["srcset"].split(",")]: one candidate is
    rewritten and appended to [srcsets]. *)
Definition srcset_step (base_url : string) (srcsets : list string) (srcset : string)
  : res (list string) :=
  let parts := Py.split " " (Py.strip srcset) in
  parts ←
    match parts with
    | part0 :: rest => r ← rewrite_url part0 base_url; Ok (r :: rest)
    | [] => Ok parts
    end;
  Ok (srcsets ++ [Py.join " " parts])%list.

(** The loop itself. *)
Fixpoint srcset_loop (base_url : string) (candidates : list string)
    (srcsets : list string) : res (list string) :=
  match candidates with
  | [] => Ok srcsets
  | srcset :: rest =>
      srcsets ← srcset_step base_url srcsets srcset;
      srcset_loop base_url rest srcsets
  end.

(** The new value of [img["srcset"]] for a string value. *)
Definition rewrite_srcset (value base_url : string) : res string :=
  srcsets ← srcset_loop base_url (Py.split "," value) [];
  Ok (Py.join ", " srcsets).

(** The bodies of the five loops of [rewrite_html], each on a tag that
    [find_all] may hand it. *)
Definition rewrite_a (base_url name : string) (attrs : attrs_t) : res attrs_t :=
  if String.eqb name "a" && bool_decide (is_Some (Bs4.get "href" attrs))
  then rewrite_attr "href" attrs base_url
  else Ok attrs.

Definition rewrite_img (base_url name : string) (attrs : attrs_t) : res attrs_t :=
  if String.eqb name "img" && bool_decide (is_Some (Bs4.get "src" attrs))
  then
    attrs ← rewrite_attr "src" attrs base_url;
    if Bs4.truthy (Bs4.get "srcset" attrs) then
      match Bs4.get "srcset" attrs with
      | Some (AStr value) =>
          r ← rewrite_srcset value base_url;
          Ok (Bs4.set "srcset" (AStr r) attrs)
      | _ => Raise (AttributeError "'list' object has no attribute 'split'")
      end
    else Ok attrs
  else Ok attrs.

(** ["stylesheet" in link.get("rel")]: an item of a list, a part of a string. *)
Definition rel_has_stylesheet (v : attr_value) : bool :=
  match v with
  | AStr s => Py.contains s "stylesheet"
  | AList l => PyStr.mem "stylesheet" l
  end.

Definition rewrite_link (base_url name : string) (attrs : attrs_t) : res attrs_t :=
  if String.eqb name "link" && bool_decide (is_Some (Bs4.get "href" attrs))
  then
    if Bs4.truthy (Bs4.get "rel" attrs)
       && match Bs4.get "rel" attrs with
          | Some v => rel_has_stylesheet v
          | None => false
          end
    then rewrite_attr "href" attrs base_url
    else Ok attrs
  else Ok attrs.

Definition rewrite_script (base_url name : string) (attrs : attrs_t) : res attrs_t :=
  if String.eqb name "script" && bool_decide (is_Some (Bs4.get "src" attrs))
  then rewrite_attr "src" attrs base_url
  else Ok attrs.

Definition rewrite_form (base_url name : string) (attrs : attrs_t) : res attrs_t :=
  if String.eqb name "form" && bool_decide (is_Some (Bs4.get "action" attrs))
  then rewrite_attr "action" attrs base_url
  else Ok attrs.

(** The five loops, one after the other, over the whole document. *)
Definition rewrite_links (soup : soup_t) (base_url : string) : res soup_t :=
  soup ← Bs4.mapM (Bs4.map_tags (rewrite_a base_url)) soup;
  soup ← Bs4.mapM (Bs4.map_tags (rewrite_img base_url)) soup;
  soup ← Bs4.mapM (Bs4.map_tags (rewrite_link base_url)) soup;
  soup ← Bs4.mapM (Bs4.map_tags (rewrite_script base_url)) soup;
  Bs4.mapM (Bs4.map_tags (rewrite_form base_url)) soup.

Definition by_name (name : string) : Bs4.criteria := Bs4.mkCriteria name [] [].
Definition link_rel (rel : string) : Bs4.criteria :=
  Bs4.mkCriteria "link" [] [("rel", rel)].

(** [meta_tag] *)
Definition meta_tag : node :=
  Bs4.set_attr "content" (AStr "width=device-width, initial-scale=1.0")
    (Bs4.set_attr "name" (AStr "viewport") (Bs4.new_tag "meta")).

(** [base_tag = soup.find("base") or soup.new_tag("base")] and
    [base_tag["target"] = "_self"]: the document afterwards, and the tag
    when it is a new one, outside the document. *)
Definition set_base_target (soup : soup_t) : soup_t * node :=
  match Bs4.find (by_name "base") soup with
  | Some p =>
      let soup := Bs4.update p (Bs4.set_attr "target" (AStr "_self")) soup in
      (soup, default (Bs4.new_tag "base") (Bs4.soup_at p soup))
  | None =>
      (soup, Bs4.set_attr "target" (AStr "_self") (Bs4.new_tag "base"))
  end.

(** The exchange of the stylesheet and its alternate. Both tags are looked
    up before either is changed. *)
Definition swap_stylesheets (soup : soup_t) : res soup_t :=
  match Bs4.find (link_rel "stylesheet alternate") soup with
  | Some stylesheet2 =>
      match Bs4.find (link_rel "stylesheet") soup with
      | Some stylesheet =>
          let soup := Bs4.update stylesheet (Bs4.set_attr "rel" (AStr "ONZIN")) soup in
          Ok (Bs4.update stylesheet2 (Bs4.set_attr "rel" (AStr "stylesheet")) soup)
      | None =>
          Raise (TypeError "'NoneType' object does not support item assignment")
      end
  | None => Ok soup
  end.

(** [if not soup.find("base"): ...] *)
Definition insert_base (soup : soup_t) (base_tag : node) : soup_t :=
  match Bs4.find (by_name "base") soup with
  | Some _ => soup
  | None =>
      match Bs4.find (by_name "head") soup with
      | Some head =>
          let soup := Bs4.update head (Bs4.insert0 base_tag) soup in
          match Bs4.find (by_name "head") soup with
          | Some head => Bs4.update head (Bs4.append meta_tag) soup
          | None => soup
          end
      | None =>
          match Bs4.find (by_name "html") soup with
          | Some html =>
              let head := Bs4.append base_tag (Bs4.new_tag "head") in
              Bs4.update html (Bs4.insert0 head) soup
          | None => soup
          end
      end
  end.

(** [rewrite_html] after the parser and before [str(soup)]. *)
Definition rewrite_soup (soup : soup_t) (base_url : string) : res soup_t :=
  soup ← rewrite_links soup base_url;
  let '(soup, base_tag) := set_base_target soup in
  soup ← swap_stylesheets soup;
  Ok (insert_base soup base_tag).

(** [rewrite_html(html_content, base_url)]; [None] is the Python [None]. *)
Definition rewrite_html (html_content : option string) (base_url : string)
  : res string :=
  match html_content with
  | None => Ok EmptyString
  | Some html =>
      if Py.is_empty html then Ok EmptyString
      else
        soup ← parse_html html;
        soup ← rewrite_soup soup base_url;
        Ok (str_soup soup)
  end.

(** The [try] block of [proxy_full_async] from the allow-list on: the
    value returned or the exception raised, and the store afterwards.
    [net] is [session.get] with the fixed headers and timeout. *)
Definition proxy_try (net : string -> res http_response)
    (fs : gmap string file) (now : Z) (url : string)
  : res response * gmap string file :=
  if negb (is_allowed url ALLOW_URLS) then (Raise (Exception "Forbidden URL!"), fs)
  else
    match is_cached fs now url DEFAULT_CACHE_EXPIRY with
    | Raise e => (Raise e, fs)
    | Ok is_cached_content =>
        let hit : option (res response) :=
          if is_cached_content then
            match get_cache_path url None with
            | Raise e => Some (Raise e)
            | Ok cache_path =>
                if bool_decide (is_Some (fs !! cache_path)) then
                  if Py.endswith cache_path ".html" then
                    Some (content ← read_cache fs cache_path false; Ok (Body content))
                  else
                    Some (content ← read_cache fs cache_path true;
                          Ok (Response content "image"))
                else None
            end
          else None in
        match hit with
        | Some r => (r, fs)
        | None =>
            match net url with
            | Raise e => (Raise e, fs)
            | Ok response =>
                if negb (status response =? 200)%Z then
                  (Ok (ErrorStatusPage url (status response)), fs)
                else
                  let content_type :=
                    Py.lower (default EmptyString (content_type_header response)) in
                  match get_cache_path url (Some content_type) with
                  | Raise e => (Raise e, fs)
                  | Ok cache_path =>
                      if negb (Py.contains content_type "text/html") then
                        match read response with
                        | Raise e => (Raise e, fs)
                        | Ok content =>
                            let fs := write_cache fs now cache_path content true in
                            (Ok (Response content content_type), fs)
                        end
                      else
                        match text response with
                        | Raise e => (Raise e, fs)
                        | Ok html_content =>
                            match rewrite_html (Some html_content) url with
                            | Raise e => (Raise e, fs)
                            | Ok processed_html =>
                                let fs := write_cache fs now cache_path processed_html false in
                                (Ok (Body processed_html), fs)
                            end
                        end
                  end
            end
        end
    end.

(** [proxy_full_async]: [url_arg] is [request.args.get("url")]. *)
Definition proxy_full_async (net : string -> res http_response)
    (fs : gmap string file) (now : Z) (url_arg : option string)
  : response * gmap string file :=
  match url_arg with
  | None => (Redirect_index, fs)
  | Some url =>
      if Py.is_empty url then (Redirect_index, fs)
      else
        let url :=
          if negb (Py.startswith_any url ["http://"; "https://"])
          then "https://" ++ url else url in
        match proxy_try net fs now url with
        | (Ok r, fs) => (r, fs)
        | (Raise e, fs) => (ErrorPage url (str_of_exn e), fs)
        end
  end.

End App.

(** ** The specification's wording, where it is compared with the code *)

(** [s.split()]: the pieces of [s] between runs of whitespace, none empty.
    [cur] is the piece being read, backwards. *)
Fixpoint split_whitespace_from (cur : list ascii) (s : string) : list string :=
  let flush (rest : list string) :=
    match cur with
    | [] => rest
    | _ :: _ => string_of_list_ascii (rev cur) :: rest
    end in
  match s with
  | EmptyString => flush []
  | String c s' =>
      if Py.isspace c then flush (split_whitespace_from [] s')
      else split_whitespace_from (c :: cur) s'
  end.

Definition split_whitespace (s : string) : list string :=
  split_whitespace_from [] s.

(** The srcset rule as the specification words it: the value is split on
    commas; in each candidate the first whitespace-separated token is the
    URL and is rewritten, the tokens after it are kept; tokens are joined
    by one space and candidates by a comma and a space. *)
Definition srcset_by_words (rewrite : string -> res string) (value : string)
  : res string :=
  candidates ←
    Bs4.mapM
      (fun candidate =>
         match split_whitespace candidate with
         | url :: descriptors =>
             r ← rewrite url; Ok (Py.join " " (r :: descriptors))
         | [] => Ok EmptyString
         end)
      (Py.split "," value);
  Ok (Py.join ", " candidates).

(** One candidate of a srcset and what the code makes of it: the candidate
    is stripped and split on single spaces, the first piece is rewritten
    by the URL rule, the pieces after it are kept, and all are joined by
    one space. *)
Definition candidate_rewritten (rewrite : string -> res string)
    (candidate out : string) : Prop :=
  exists url descriptors r,
    Py.split " " (Py.strip candidate) = url :: descriptors
    /\ rewrite url = Ok r
    /\ out = Py.join " " (r :: descriptors).

(** A fetch that ends in a failure, with the page the specification asks
    for: the transport fails ([session.get] or the reading of the body
    raises), or the status is not 200. *)
Inductive fetch_failed (url : string) : res http_response -> response -> Prop :=
  | transport_failed (e : exn) :
      fetch_failed url (Raise e) (ErrorPage url (str_of_exn e))
  | status_failed (r : http_response) :
      status r <> 200%Z ->
      fetch_failed url (Ok r) (ErrorStatusPage url (status r))
  | read_failed (r : http_response) (e : exn) :
      status r = 200%Z ->
      Py.contains (Py.lower (default EmptyString (content_type_header r))) "text/html"
        = false ->
      read r = Raise e ->
      fetch_failed url (Ok r) (ErrorPage url (str_of_exn e))
  | text_failed (r : http_response) (e : exn) :
      status r = 200%Z ->
      Py.contains (Py.lower (default EmptyString (content_type_header r))) "text/html"
        = true ->
      text r = Raise e ->
      fetch_failed url (Ok r) (ErrorPage url (str_of_exn e)).

(** [url] as [proxy_full_async] goes on with it: [https://] is put before
    a URL that has no scheme. *)
Definition with_scheme (url : string) : string :=
  if negb (Py.startswith_any url ["http://"; "https://"])
  then "https://" ++ url else url.

(** ** A concrete environment, for the examples *)

Module Sample.

Definition cache_dir : string := "/srv/cachingproxy/cache".

(** A small table for [mimetypes.guess_extension]. *)
Definition guess_extension (content_type : string) : option string :=
  if String.eqb content_type "image/png" then Some ".png"
  else if String.eqb content_type "image/jpeg" then Some ".jpg"
  else None.

(** A host validation that accepts every bracketed host. *)
Definition accept_host (hostname : string) : res unit := Ok tt.

(** Decoding of bytes that are all ASCII. *)
Definition decode (bytes : string) : string := bytes.

(** A parser that is never to be called, and a serializer. *)
Definition no_parser (html : string) : res soup_t :=
  Raise (ExternalError "the parser was called").
Definition no_serializer (soup : soup_t) : string := EmptyString.

(** A network without connectivity, and one where every origin answers 404. *)
Definition net_down (url : string) : res http_response :=
  Raise (ExternalError "Cannot connect to host").
Definition net_404 (url : string) : res http_response :=
  Ok (mkHttp 404 (Some "text/html") (Ok EmptyString) (Ok EmptyString)).

(** A store with one page, cached at time 1000. *)
Definition page_path : string :=
  "/srv/cachingproxy/cache/example.com/http#$$example.com$index.html".
Definition store : gmap string file :=
  {[ page_path := mkFile "<html></html>" 1000 ]}.

Definition tab : string := String (ascii_of_nat 9) EmptyString.

(** Documents as the parser hands them over: a page with a head, a
    fragment, a page without head, a page with a [base] tag, and a page
    with two [base] tags that carry a target. *)
Definition page : soup_t :=
  [Tag "html" []
     [Tag "head" [] [Tag "title" [] [NavigableString "Day 1"]];
      Tag "body" [] [Tag "a" [("href", AStr "day/2")] [NavigableString "next"]]]].

Definition fragment : soup_t :=
  [Tag "p" [] [NavigableString "hello"]].

Definition page_without_head : soup_t :=
  [Tag "html" [] [Tag "body" [] [NavigableString "hello"]]].

Definition page_with_base : soup_t :=
  [Tag "html" []
     [Tag "head" [] [Tag "base" [("href", AStr "https://example.com/")] []];
      Tag "body" [] []]].

Definition page_with_two_bases : soup_t :=
  [Tag "html" []
     [Tag "head" []
        [Tag "base" [("target", AStr "_blank")] [];
         Tag "base" [("target", AStr "_top")] []]]].

(** A fragment whose link has a bracket that is not closed in its host. *)
Definition fragment_with_bad_link : soup_t :=
  [Tag "a" [("href", AStr "//[x")] [NavigableString "x"]].

(** A page with an image that has a [src] and a srcset. *)
Definition page_with_image : soup_t :=
  [Tag "html" []
     [Tag "head" [] [];
      Tag "body" []
        [Tag "img" [("src", AStr "a.png"); ("srcset", AStr "a.png 1x, b.png 2x")]
           []]]].

(** A fragment with tags and attributes that are none of the loops'. *)
Definition fragment_with_video : soup_t :=
  [Tag "video" [("src", AStr "v.mp4")] [];
   Tag "a" [("class", AList ["nav"]); ("href", AStr "day/2"); ("src", AStr "x")]
     [NavigableString "next"];
   Tag "link" [("rel", AList ["icon"]); ("href", AStr "favicon.ico")] []].

(** A head with a stylesheet and its alternate, and one where the
    alternate comes first. *)
Definition head_with_stylesheets : soup_t :=
  [Tag "head" []
     [Tag "link" [("rel", AList ["stylesheet"]); ("href", AStr "light.css")] [];
      Tag "link" [("rel", AList ["stylesheet"; "alternate"]);
                  ("href", AStr "dark.css")] []]].

Definition head_with_alternate_first : soup_t :=
  [Tag "head" []
     [Tag "link" [("rel", AList ["stylesheet"; "alternate"]);
                  ("href", AStr "dark.css")] [];
      Tag "link" [("rel", AList ["stylesheet"]); ("href", AStr "light.css")] []]].

End Sample.

(** ** Notions for the further properties *)

(** All the characters, by their code. *)
Definition all_ascii : list ascii := List.map ascii_of_nat (seq 0 256).

(** What [quote] writes for one character of its argument. *)
Definition quote_char (c : ascii) : string :=
  Urllib.quote (String c EmptyString).

(** Neither an opening nor a closing bracket occurs. *)
Definition no_bracket (s : string) : bool :=
  negb (Py.has_char "[" s) && negb (Py.has_char "]" s).

(** The attributes that the loop over the tags of one name may write to. *)
Definition link_keys (name : string) : list string :=
  if String.eqb name "a" then ["href"]
  else if String.eqb name "img" then ["src"; "srcset"]
  else if String.eqb name "link" then ["href"]
  else if String.eqb name "script" then ["src"]
  else if String.eqb name "form" then ["action"]
  else [].

(** The attributes, with the values of some keys blanked: the keys stay,
    in their order. *)
Definition blank (keys : list string) (attrs : attrs_t) : attrs_t :=
  List.map
    (fun kv => if PyStr.mem (fst kv) keys then (fst kv, AStr EmptyString) else kv)
    attrs.

(** A document with the values of its link attributes blanked. *)
Fixpoint blank_links (n : node) : node :=
  match n with
  | Tag name attrs ch =>
      Tag name (blank (link_keys name) attrs) (List.map blank_links ch)
  | NavigableString _ => n
  end.




(** The names of the tags that the end of [rewrite_html] inserts into a
    document. *)
Definition inserted_tags (soup : soup_t) : list string :=
  match Bs4.find (by_name "base") soup with
  | Some _ => []
  | None =>
      match Bs4.find (by_name "head") soup with
      | Some _ => ["base"; "meta"]
      | None =>
          match Bs4.find (by_name "html") soup with
          | Some _ => ["head"; "base"]
          | None => []
          end
      end
  end.

(** The value of [rel] of a tag. *)
Definition rel_of (n : node) : option attr_value :=
  match n with
  | Tag _ attrs _ => Bs4.get "rel" attrs
  | NavigableString _ => None
  end.

(** Two URLs that [encode_url] cannot tell apart at one position. *)
Definition same_mark (c d : ascii) : Prop :=
  c = d
  \/ (c = "/"%char /\ d = "$"%char) \/ (c = "$"%char /\ d = "/"%char)
  \/ (c = ":"%char /\ d = "#"%char) \/ (c = "#"%char /\ d = ":"%char).

(** ** Origins and a parser, for the examples of the route *)

Module Origin.

(** A serializer of tags and strings, without escaping. *)
Definition show_value (v : attr_value) : string :=
  match v with
  | AStr s => s
  | AList l => Py.join " " l
  end.

Definition show_attrs (attrs : attrs_t) : string :=
  fold_right
    (fun kv acc => " " ++ fst kv ++ "='" ++ show_value (snd kv) ++ "'" ++ acc)
    EmptyString attrs.

Fixpoint show (n : node) : string :=
  match n with
  | Tag name attrs ch =>
      "<" ++ name ++ show_attrs attrs ++ ">"
      ++ fold_right (fun c acc => show c ++ acc) EmptyString ch
      ++ "</" ++ name ++ ">"
  | NavigableString s => s
  end.

Definition serializer (soup : soup_t) : string :=
  fold_right (fun c acc => show c ++ acc) EmptyString soup.

(** A parser that knows one page. *)
Definition parser (html : string) : res soup_t := Ok Sample.page.

(** An origin that answers with a page, one with a stylesheet, one with an
    image. *)
Definition html (url : string) : res http_response :=
  Ok (mkHttp 200 (Some "text/html; charset=utf-8")
        (Ok "<html>day 1</html>") (Ok "<html>day 1</html>")).



(** The page of day 1, as the route rewrites it with this parser. *)
Definition processed : string :=
  match rewrite_html Sample.accept_host parser serializer
          (Some "<html>day 1</html>") "https://adventofcode.com/2023/day/1" with
  | Ok s => s
  | Raise _ => EmptyString
  end.

End Origin.

(** * Properties *)

(** ** Strings *)

Lemma str_app_cons (x : ascii) (a b : string) :
  String x a ++ b = String x (a ++ b).
Proof. reflexivity. Qed.

Lemma str_app_nil_l (a : string) : EmptyString ++ a = a.
Proof. reflexivity. Qed.

Lemma str_app_assoc (a b c : string) : (a ++ b) ++ c = a ++ (b ++ c).
Proof.
  induction a as [|x a IH]; [reflexivity|].
  rewrite !str_app_cons, IH. reflexivity.
Qed.

Lemma str_app_nil_r (a : string) : a ++ EmptyString = a.
Proof.
  induction a as [|x a IH]; [reflexivity|].
  rewrite str_app_cons, IH. reflexivity.
Qed.

Lemma startswith_app (p r : string) : Py.startswith (p ++ r) p = true.
Proof.
  induction p as [|c p IH]; simpl.
  - destruct r; reflexivity.
  - rewrite Ascii.eqb_refl. exact IH.
Qed.

Lemma startswith_spec (s p : string) :
  Py.startswith s p = true <-> exists r, s = p ++ r.
Proof.
  split.
  - revert s. induction p as [|c p IH]; intros s H.
    + exists s. reflexivity.
    + destruct s as [|d s]; [discriminate|]. simpl in H.
      apply andb_true_iff in H as [Hc Hp].
      apply Ascii.eqb_eq in Hc. subst d.
      destruct (IH _ Hp) as [r ->]. exists r. reflexivity.
  - intros [r ->]. apply startswith_app.
Qed.

Lemma startswith_any_spec (s : string) (ps : list string) :
  Py.startswith_any s ps = true <-> exists p r, In p ps /\ s = p ++ r.
Proof.
  unfold Py.startswith_any. rewrite existsb_exists. split.
  - intros (p & Hin & H). apply startswith_spec in H as [r ->]. eauto.
  - intros (p & r & Hin & ->). exists p. split; [exact Hin|apply startswith_app].
Qed.

Lemma is_empty_spec (s : string) : Py.is_empty s = true <-> s = EmptyString.
Proof. destruct s; simpl; split; congruence. Qed.

(** ** The allow-list *)

Lemma allow_loop_false (url : string) (l : list string) :
  allow_loop url l false = true <-> exists p r, In p l /\ url = p ++ r.
Proof.
  induction l as [|a l IH]; simpl.
  - split; [discriminate|]. intros (p & r & [] & _).
  - destruct (Py.startswith url a) eqn:Ha.
    + split; [|reflexivity]. intros _.
      apply startswith_spec in Ha as [r ->]. exists a, r. auto.
    + rewrite IH. split.
      * intros (p & r & Hin & ->). exists p, r. auto.
      * intros (p & r & [<-|Hin] & ->).
        -- rewrite startswith_app in Ha. discriminate.
        -- exists p, r. auto.
Qed.

(** C1, as the code has it: a URL is allowed exactly when the configured
    list is empty or the URL starts with one of its entries. With a list
    that is not empty this is the prefix test of the specification; with the empty
    list the variable [allowed] keeps its first value and every URL is
    allowed. *)
Theorem is_allowed_iff (url : string) (allow_urls : list string) :
  is_allowed url allow_urls = true
  <-> (allow_urls = [] \/ exists p r, In p allow_urls /\ url = p ++ r).
Proof.
  unfold is_allowed. destruct allow_urls as [|a l].
  - simpl. split; auto.
  - change (allow_loop url (a :: l) true) with (allow_loop url (a :: l) false).
    rewrite allow_loop_false. split; [auto|].
    intros [H|H]; [discriminate|exact H].
Qed.

(** C1 as stated fails on the empty list: nothing is a prefix taken from
    it, and the URL is allowed. *)
Lemma is_allowed_empty_allows :
  is_allowed "https://evil.example/" [] = true
  /\ ~ (exists p r, In p ([] : list string) /\ "https://evil.example/" = p ++ r).
Proof.
  split; [reflexivity|]. intros (p & r & [] & _).
Qed.

(** The two URLs of the specification, on the configured list. *)
Example is_allowed_adventofcode :
  is_allowed "https://adventofcode.com/2023" ALLOW_URLS = true
  /\ is_allowed "https://evil.example/" ALLOW_URLS = false.
Proof. split; reflexivity. Qed.

(** ** The URL rewrite rule *)

Section RewriteUrl.

Variable check_bracketed_host : string -> res unit.

(** C9: a value that is empty or starts with [javascript:], [data:], [#]
    or [mailto:] is returned as it is. *)
Theorem rewrite_url_skips (v base_url : string) :
  v = EmptyString
  \/ (exists p r, In p ["javascript:"; "data:"; "#"; "mailto:"] /\ v = p ++ r) ->
  rewrite_url check_bracketed_host v base_url = Ok v.
Proof.
  intros [->|H]; [reflexivity|].
  unfold rewrite_url.
  destruct (Py.is_empty v); [reflexivity|].
  apply startswith_any_spec in H. rewrite H. reflexivity.
Qed.

Lemma quote_app (s t : string) :
  Urllib.quote (s ++ t) = Urllib.quote s ++ Urllib.quote t.
Proof.
  induction s as [|c s IH]; [reflexivity|].
  simpl. rewrite IH.
  induction (Urllib.utf8_char c) as [|b l IHl]; [reflexivity|].
  simpl. rewrite IHl. symmetry. apply str_app_assoc.
Qed.

(** C2, as the code has it: a value that is neither skipped nor starts with
    [http://] or [https://] is resolved against the base with [urljoin] and
    becomes the prefix, [/proxy?url=] and the quoted absolute URL; [quote]
    is called with its default safe character, so a colon becomes [%3A] and
    a slash stays a slash. *)
Theorem rewrite_url_relative (v base_url : string) :
  v <> EmptyString ->
  Py.startswith_any v ["javascript:"; "data:"; "#"; "mailto:"] = false ->
  Py.startswith_any v ["http://"; "https://"] = false ->
  rewrite_url check_bracketed_host v base_url
  = (absolute ← Urllib.urljoin check_bracketed_host base_url v;
     Ok (PREFIX ++ "/proxy?url=" ++ Urllib.quote absolute))
  /\ (forall a b, Urllib.quote (a ++ ":" ++ b)
                  = Urllib.quote a ++ "%3A" ++ Urllib.quote b)
  /\ (forall a b, Urllib.quote (a ++ "/" ++ b)
                  = Urllib.quote a ++ "/" ++ Urllib.quote b).
Proof.
  intros Hne Hskip Habs. split; [|split].
  - unfold rewrite_url. rewrite Hskip, Habs.
    destruct v; [congruence|reflexivity].
  - intros a b. rewrite !quote_app. reflexivity.
  - intros a b. rewrite !quote_app. reflexivity.
Qed.

End RewriteUrl.

(** The example of the specification: the relative link [day/2] on the page
    of day 1. *)
Lemma rewrite_url_relative_day2 :
  rewrite_url Sample.accept_host "day/2" "https://adventofcode.com/2023/day/1"
  = Ok "/cachingproxy/proxy?url=https%3A//adventofcode.com/2023/day/day/2".
Proof.
  destruct (rewrite_url_relative Sample.accept_host
              "day/2" "https://adventofcode.com/2023/day/1") as [H _];
    [discriminate|reflexivity|reflexivity|].
  rewrite H. reflexivity.
Defined.

(** C2 as stated fails on its own example: whatever the host validation,
    the slashes of the absolute URL are not percent-encoded. *)
Lemma rewrite_url_keeps_slashes :
  (forall check,
     rewrite_url check "day/2" "https://adventofcode.com/2023/day/1"
     = Ok "/cachingproxy/proxy?url=https%3A//adventofcode.com/2023/day/day/2")
  /\ "/cachingproxy/proxy?url=https%3A//adventofcode.com/2023/day/day/2"
     <> PREFIX ++ "/proxy?url=https%3A%2F%2Fadventofcode.com%2F2023%2Fday%2Fday%2F2".
Proof.
  split; [intros check; reflexivity|discriminate].
Qed.

(** The other example: [/foo] on [https://example.com/bar]. *)
Example rewrite_url_foo :
  rewrite_url Sample.accept_host "/foo" "https://example.com/bar"
  = Ok "/cachingproxy/proxy?url=https%3A//example.com/foo".
Proof. reflexivity. Qed.

(** The example of C9, and its witness. *)
Lemma rewrite_url_skips_javascript :
  rewrite_url Sample.accept_host "javascript:void(0)" "https://example.com/"
  = Ok "javascript:void(0)".
Proof.
  apply (rewrite_url_skips Sample.accept_host).
  right. exists "javascript:", "void(0)". split; [simpl; auto|reflexivity].
Defined.

(** ** The cache key *)

Lemma has_char_app (c : ascii) (a b : string) :
  Py.has_char c (a ++ b) = Py.has_char c a || Py.has_char c b.
Proof.
  induction a as [|x a IH]; [reflexivity|].
  rewrite str_app_cons. simpl. rewrite IH. apply orb_assoc.
Qed.

Lemma str_app_length (a b : string) :
  String.length (a ++ b) = String.length a + String.length b.
Proof.
  induction a as [|x a IH]; [reflexivity|].
  rewrite str_app_cons. simpl. rewrite IH. reflexivity.
Qed.

Lemma str_app_inv_head (a b c : string) : a ++ b = a ++ c -> b = c.
Proof.
  induction a as [|x a IH]; [auto|].
  rewrite !str_app_cons. intros H. injection H as H. auto.
Qed.

Lemma str_app_eq_self (a e : string) : a ++ e = e -> a = EmptyString.
Proof.
  intros H. apply (f_equal String.length) in H.
  rewrite str_app_length in H. destruct a; [reflexivity|simpl in H; lia].
Qed.

Lemma str_app_inv_tail (a b e : string) : a ++ e = b ++ e -> a = b.
Proof.
  revert b. induction a as [|x a IH]; intros b H.
  - symmetry in H. rewrite str_app_nil_l in H.
    apply str_app_eq_self in H. congruence.
  - destruct b as [|y b].
    + rewrite str_app_nil_l in H. apply str_app_eq_self in H. exact H.
    + rewrite !str_app_cons in H. injection H as -> H.
      f_equal. apply IH. exact H.
Qed.

(** The text after the last separator is determined by the whole. *)
Lemma after_last_sep (c : ascii) (p q x y : string) :
  Py.has_char c x = false -> Py.has_char c y = false ->
  p ++ String c x = q ++ String c y -> x = y.
Proof.
  intros Hx Hy. revert q. induction p as [|d p IH]; intros q H.
  - destruct q as [|e q].
    + rewrite !str_app_nil_l in H. congruence.
    + rewrite str_app_nil_l, str_app_cons in H. injection H as _ H.
      rewrite H, has_char_app in Hx. simpl in Hx.
      rewrite Ascii.eqb_refl, orb_true_r in Hx. discriminate.
  - destruct q as [|e q].
    + rewrite str_app_nil_l, str_app_cons in H. injection H as _ H.
      rewrite <- H, has_char_app in Hy. simpl in Hy.
      rewrite Ascii.eqb_refl, orb_true_r in Hy. discriminate.
    + rewrite !str_app_cons in H. injection H as _ H. eauto.
Qed.

(** A text without separator is not one that ends in a separator and such
    a text. *)
Lemma no_sep_whole (c : ascii) (q x y : string) :
  Py.has_char c x = false -> x = q ++ String c y -> False.
Proof.
  intros Hx ->. rewrite has_char_app in Hx. simpl in Hx.
  rewrite Ascii.eqb_refl, orb_true_r in Hx. discriminate.
Qed.

Lemma endswith_spec (s x : string) :
  Py.endswith s x = true <-> exists q, s = q ++ x.
Proof.
  split.
  - induction s as [|c s IH]; cbn [Py.endswith]; intros H.
    + rewrite orb_false_r in H. apply String.eqb_eq in H. subst x.
      exists EmptyString. reflexivity.
    + apply orb_true_iff in H as [H|H].
      * apply String.eqb_eq in H. exists EmptyString. rewrite H. reflexivity.
      * destruct (IH H) as [q ->]. exists (String c q). reflexivity.
  - intros [q ->]. induction q as [|c q IH].
    + rewrite str_app_nil_l. destruct x; cbn [Py.endswith];
        rewrite String.eqb_refl; reflexivity.
    + rewrite str_app_cons. cbn [Py.endswith]. rewrite IH. apply orb_true_r.
Qed.

Lemma endswith_app (q x : string) : Py.endswith (q ++ x) x = true.
Proof. apply endswith_spec. exists q. reflexivity. Qed.

(** The character [encode_url] writes for a character of the URL. *)
Lemma encode_url_cons (c : ascii) (s : string) :
  encode_url (String c s)
  = String (if Ascii.eqb (if Ascii.eqb c "/" then "$"%char else c) ":"
            then "#"%char else if Ascii.eqb c "/" then "$"%char else c)
           (encode_url s).
Proof. reflexivity. Qed.

Lemma encode_url_no_slash (url : string) :
  Py.has_char "/" (encode_url url) = false.
Proof.
  induction url as [|c s IH]; [reflexivity|].
  rewrite encode_url_cons. simpl. rewrite IH, orb_false_r.
  destruct (Ascii.eqb_spec c "/") as [->|Hc]; [reflexivity|].
  destruct (Ascii.eqb_spec c ":") as [->|Hd]; [reflexivity|].
  apply Ascii.eqb_neq. exact Hc.
Qed.

Lemma encode_url_inj (u1 u2 : string) :
  Py.has_char "$" u1 = false -> Py.has_char "#" u1 = false ->
  Py.has_char "$" u2 = false -> Py.has_char "#" u2 = false ->
  encode_url u1 = encode_url u2 -> u1 = u2.
Proof.
  revert u2. induction u1 as [|c s IH]; intros [|d t]; try discriminate;
    [reflexivity|].
  rewrite !encode_url_cons. simpl.
  intros Hc1 Hc2 Hd1 Hd2 H.
  apply orb_false_iff in Hc1 as [Hc1 Hs1]. apply orb_false_iff in Hc2 as [Hc2 Hs2].
  apply orb_false_iff in Hd1 as [Hd1 Ht1]. apply orb_false_iff in Hd2 as [Hd2 Ht2].
  apply Ascii.eqb_neq in Hc1, Hc2, Hd1, Hd2.
  injection H as Hcd Hst. f_equal; [|auto].
  destruct (Ascii.eqb_spec c "/") as [->|Hc], (Ascii.eqb_spec d "/") as [->|Hd];
    simpl in Hcd; try reflexivity.
  - destruct (Ascii.eqb_spec d ":"); congruence.
  - destruct (Ascii.eqb_spec c ":"); congruence.
  - destruct (Ascii.eqb_spec c ":") as [->|Hc'], (Ascii.eqb_spec d ":") as [->|Hd'];
      congruence.
Qed.

(** What [os.path.join] makes of a last component that begins with a text
    [x] free of slashes: [x] is still what follows the last slash before
    the rest [e] of the component. *)
Lemma join_step_shape (path x e : string) :
  Py.has_char "/" x = false ->
  exists a, PosixPath.join_step path (x ++ e) = a ++ e
            /\ (a = x \/ exists q, a = q ++ String "/" x).
Proof.
  intros Hx. unfold PosixPath.join_step.
  destruct (Py.startswith (x ++ e) "/") eqn:Hs.
  - destruct x as [|c x].
    + exists EmptyString. split; [reflexivity|left; reflexivity].
    + rewrite str_app_cons in Hs. simpl in Hs, Hx.
      apply orb_false_iff in Hx as [Hc _]. rewrite Hc in Hs. discriminate.
  - destruct (Py.is_empty path) eqn:He; simpl.
    + apply is_empty_spec in He. subst path.
      exists x. split; [reflexivity|left; reflexivity].
    + destruct (Py.endswith path "/") eqn:Hend.
      * apply endswith_spec in Hend as [q ->].
        exists (q ++ String "/" x). split; [|right; eauto].
        rewrite !str_app_assoc. reflexivity.
      * exists (path ++ String "/" x). split; [|right; eauto].
        rewrite !str_app_assoc. reflexivity.
Qed.

Lemma join_step_inj (p1 p2 x1 x2 e : string) :
  Py.has_char "/" x1 = false -> Py.has_char "/" x2 = false ->
  PosixPath.join_step p1 (x1 ++ e) = PosixPath.join_step p2 (x2 ++ e) ->
  x1 = x2.
Proof.
  intros H1 H2 H.
  destruct (join_step_shape p1 x1 e H1) as (a1 & E1 & S1).
  destruct (join_step_shape p2 x2 e H2) as (a2 & E2 & S2).
  rewrite E1, E2 in H. apply str_app_inv_tail in H. subst a2.
  destruct S1 as [->|[q1 ->]], S2 as [E|[q2 E]].
  - exact E.
  - exfalso. exact (no_sep_whole _ _ _ _ H1 E).
  - exfalso. symmetry in E. exact (no_sep_whole _ _ _ _ H2 E).
  - exact (after_last_sep _ _ _ _ _ H1 H2 E).
Qed.

Lemma rfind_neg (c : ascii) (s : string) :
  (Py.rfind c s < 0)%Z -> Py.has_char c s = false.
Proof.
  induction s as [|d s IH]; [reflexivity|]. simpl.
  destruct (0 <=? Py.rfind c s)%Z eqn:Hi.
  - apply Z.leb_le in Hi. lia.
  - apply Z.leb_gt in Hi. destruct (Ascii.eqb d c); [lia|].
    intros _. simpl. auto.
Qed.

Lemma rfind_split (c : ascii) (s : string) :
  (0 <= Py.rfind c s)%Z ->
  exists a b, s = a ++ String c b /\ Py.has_char c b = false
              /\ Py.rfind c s = Z.of_nat (String.length a).
Proof.
  induction s as [|d s IH]; simpl; [lia|].
  destruct (0 <=? Py.rfind c s)%Z eqn:Hi.
  - intros _. apply Z.leb_le in Hi.
    destruct (IH Hi) as (a & b & -> & Hb & Hr).
    exists (String d a), b. rewrite str_app_cons. repeat split; [exact Hb|].
    rewrite Hr. simpl. lia.
  - apply Z.leb_gt in Hi. destruct (Ascii.eqb_spec d c) as [->|Hd]; [|lia].
    intros _. exists EmptyString, s. repeat split. apply rfind_neg. exact Hi.
Qed.

Lemma rfind_app_ge (c : ascii) (a b : string) :
  Py.has_char c b = true ->
  (Z.of_nat (String.length a) <= Py.rfind c (a ++ b))%Z.
Proof.
  intros Hb. induction a as [|d a IH].
  - rewrite str_app_nil_l. simpl.
    destruct (Z.lt_ge_cases (Py.rfind c b) 0) as [H|H]; [|exact H].
    apply rfind_neg in H. congruence.
  - rewrite str_app_cons. simpl.
    destruct (0 <=? Py.rfind c (a ++ b))%Z eqn:Hi; [lia|].
    apply Z.leb_gt in Hi. lia.
Qed.

Lemma drop_app_length (a t : string) : Py.drop (String.length a) (a ++ t) = t.
Proof.
  induction a as [|d a IH]; [destruct t; reflexivity|].
  rewrite str_app_cons. simpl. exact IH.
Qed.

Lemma splitext_loop_some (p : string) (dotIndex filenameIndex : Z) (n : nat)
    (r : string * string) :
  PosixPath.splitext_loop p dotIndex filenameIndex n = Some r ->
  r = (Py.slice_to p dotIndex, Py.slice_from p dotIndex).
Proof.
  revert filenameIndex. induction n as [|n IH]; intros f; simpl; [discriminate|].
  destruct (negb _); [congruence|apply IH].
Qed.

(** The extension [splitext] gives is empty, or a dot and a text without
    dot and without slash. *)
Lemma splitext_ext_shape (p : string) :
  snd (PosixPath.splitext p) = EmptyString
  \/ exists w, snd (PosixPath.splitext p) = String "." w
               /\ Py.has_char "." w = false /\ Py.has_char "/" w = false.
Proof.
  unfold PosixPath.splitext.
  destruct (Py.rfind "/" p <? Py.rfind "." p)%Z eqn:Hlt; [|left; reflexivity].
  apply Z.ltb_lt in Hlt.
  destruct (PosixPath.splitext_loop _ _ _ _) as [r|] eqn:Hloop; [|left; reflexivity].
  apply splitext_loop_some in Hloop. subst r. right. simpl.
  assert (Hsep : (-1 <= Py.rfind "/" p)%Z).
  { clear. induction p as [|d s IH]; simpl; [lia|].
    destruct (0 <=? Py.rfind "/" s)%Z; [lia|]. destruct (Ascii.eqb d "/"); lia. }
  destruct (rfind_split "." p) as (a & b & Hp & Hb & Hr); [lia|].
  exists b. unfold Py.slice_from. rewrite Hr, Nat2Z.id.
  rewrite Hp at 1. rewrite drop_app_length. repeat split; [exact Hb|].
  destruct (Py.has_char "/" b) eqn:Hs; [|reflexivity].
  exfalso. pose proof (rfind_app_ge "/" (a ++ ".") b Hs) as Hge.
  rewrite str_app_assoc in Hge. change ("." ++ b) with (String "." b) in Hge.
  rewrite <- Hp, str_app_length in Hge. simpl in Hge. lia.
Qed.

Section CachePath.

Variable CACHE_DIR : string.
Variable guess_extension : string -> option string.
Variable check_bracketed_host : string -> res unit.

(** The path of a URL is the cache directory joined with the host and with
    the encoded URL followed by an extension. For two URLs and one
    content type, the two extensions are the same, or each is a dot and a
    text without dot and slash. *)
Lemma get_cache_path_pair (u1 u2 : string) (ct : option string) (p1 p2 : string) :
  get_cache_path CACHE_DIR guess_extension check_bracketed_host u1 ct = Ok p1 ->
  get_cache_path CACHE_DIR guess_extension check_bracketed_host u2 ct = Ok p2 ->
  exists n1 n2 e1 e2,
    p1 = PosixPath.join_step (PosixPath.join_step CACHE_DIR n1) (encode_url u1 ++ e1)
    /\ p2 = PosixPath.join_step (PosixPath.join_step CACHE_DIR n2) (encode_url u2 ++ e2)
    /\ (e1 = e2
        \/ exists w1 w2,
             e1 = String "." w1 /\ e2 = String "." w2
             /\ Py.has_char "." w1 = false /\ Py.has_char "/" w1 = false
             /\ Py.has_char "." w2 = false /\ Py.has_char "/" w2 = false).
Proof.
  unfold get_cache_path.
  destruct (Urllib.urlparse check_bracketed_host u1 "") as [r1|] eqn:E1;
    [|discriminate].
  destruct (Urllib.urlparse check_bracketed_host u2 "") as [r2|] eqn:E2;
    [|discriminate].
  cbn [mbind res_bind]. intros H1 H2.
  injection H1 as <-. injection H2 as <-.
  exists (Urllib.netloc r1), (Urllib.netloc r2).
  assert (Hdot : forall p,
    exists w, (if Py.is_empty (snd (PosixPath.splitext p)) then ".bin"
               else snd (PosixPath.splitext p)) = String "." w
              /\ Py.has_char "." w = false /\ Py.has_char "/" w = false).
  { intros p. destruct (splitext_ext_shape p) as [->|(w & -> & Hw)].
    - exists "bin". repeat split.
    - exists w. split; [reflexivity|exact Hw]. }
  assert (Hboth : forall q1 q2,
    exists w1 w2,
      (if Py.is_empty (snd (PosixPath.splitext q1)) then ".bin"
       else snd (PosixPath.splitext q1)) = String "." w1
      /\ (if Py.is_empty (snd (PosixPath.splitext q2)) then ".bin"
          else snd (PosixPath.splitext q2)) = String "." w2
      /\ Py.has_char "." w1 = false /\ Py.has_char "/" w1 = false
      /\ Py.has_char "." w2 = false /\ Py.has_char "/" w2 = false).
  { intros q1 q2. destruct (Hdot q1) as (w1 & -> & ? & ?).
    destruct (Hdot q2) as (w2 & -> & ? & ?). exists w1, w2. auto 6. }
  destruct ct as [ct|]; [|do 2 eexists; split; [reflexivity|split; [reflexivity|auto]]].
  destruct (negb (Py.is_empty ct) && Py.contains ct "image");
    [|do 2 eexists; split; [reflexivity|split; [reflexivity|auto]]].
  destruct (guess_extension ct) as [e|].
  - destruct (Py.is_empty e) eqn:He.
    + do 2 eexists. split; [reflexivity|split; [reflexivity|right; apply Hboth]].
    + do 2 eexists. split; [reflexivity|split; [reflexivity|left; reflexivity]].
  - do 2 eexists. split; [reflexivity|split; [reflexivity|right; apply Hboth]].
Qed.

(** C3, as the code has it: two URLs in which neither [$] nor [#] occurs,
    the characters that stand for [/] and [:] in the file name, and that
    differ, have different cache paths for one content type. *)
Theorem get_cache_path_injective (u1 u2 : string) (ct : option string)
    (p1 p2 : string) :
  Py.has_char "$" u1 = false -> Py.has_char "#" u1 = false ->
  Py.has_char "$" u2 = false -> Py.has_char "#" u2 = false ->
  get_cache_path CACHE_DIR guess_extension check_bracketed_host u1 ct = Ok p1 ->
  get_cache_path CACHE_DIR guess_extension check_bracketed_host u2 ct = Ok p2 ->
  u1 <> u2 -> p1 <> p2.
Proof.
  intros Ha1 Hb1 Ha2 Hb2 H1 H2 Hne Heq. apply Hne.
  destruct (get_cache_path_pair _ _ _ _ _ H1 H2)
    as (n1 & n2 & e1 & e2 & -> & -> & Hext).
  apply encode_url_inj; try assumption.
  destruct Hext as [->|(w1 & w2 & -> & -> & Hd1 & Hs1 & Hd2 & Hs2)].
  - exact (join_step_inj _ _ _ _ _ (encode_url_no_slash u1)
             (encode_url_no_slash u2) Heq).
  - rewrite <- (str_app_nil_r (encode_url u1 ++ String "." w1)) in Heq.
    rewrite <- (str_app_nil_r (encode_url u2 ++ String "." w2)) in Heq.
    apply join_step_inj in Heq.
    + pose proof (after_last_sep _ _ _ _ _ Hd1 Hd2 Heq) as ->.
      exact (str_app_inv_tail _ _ _ Heq).
    + rewrite has_char_app, encode_url_no_slash. simpl. exact Hs1.
    + rewrite has_char_app, encode_url_no_slash. simpl. exact Hs2.
Qed.

End CachePath.

(** Witness of C3: two pages of one host. *)
Lemma get_cache_path_injective_pages :
  "/srv/cachingproxy/cache/example.com/http#$$example.com$a.html"
  <> "/srv/cachingproxy/cache/example.com/http#$$example.com$b.html".
Proof.
  apply (get_cache_path_injective Sample.cache_dir Sample.guess_extension
           Sample.accept_host "http://example.com/a" "http://example.com/b" None);
    first [reflexivity|discriminate].
Defined.

(** C3 as stated fails: a URL with [/] and the URL with [$] in its place
    are distinct and have one cache path. *)
Lemma get_cache_path_collision :
  "http://example.com/a/b" <> "http://example.com/a$b"
  /\ get_cache_path Sample.cache_dir Sample.guess_extension Sample.accept_host
       "http://example.com/a/b" None
     = Ok "/srv/cachingproxy/cache/example.com/http#$$example.com$a$b.html"
  /\ get_cache_path Sample.cache_dir Sample.guess_extension Sample.accept_host
       "http://example.com/a$b" None
     = Ok "/srv/cachingproxy/cache/example.com/http#$$example.com$a$b.html".
Proof. split; [discriminate|split; reflexivity]. Qed.

(** ** Freshness and the cache hit *)

Lemma join_step_ends (path b : string) :
  exists q, PosixPath.join_step path b = q ++ b.
Proof.
  unfold PosixPath.join_step. destruct (Py.startswith b "/").
  - exists EmptyString. reflexivity.
  - destruct (Py.is_empty path || Py.endswith path "/").
    + exists path. reflexivity.
    + exists (path ++ "/"). rewrite str_app_assoc. reflexivity.
Qed.

Section Cache.

Variable CACHE_DIR : string.
Variable guess_extension : string -> option string.
Variable check_bracketed_host : string -> res unit.
Variable decode_utf8_replace : string -> string.
Variable parse_html : string -> res soup_t.
Variable str_soup : soup_t -> string.

(** Without a content type the path is the one of the [.html] guess. *)
Lemma get_cache_path_none (url p : string) :
  get_cache_path CACHE_DIR guess_extension check_bracketed_host url None = Ok p
  <-> exists parsed,
        Urllib.urlparse check_bracketed_host url EmptyString = Ok parsed
        /\ p = PosixPath.join CACHE_DIR
                 [Urllib.netloc parsed; encode_url url ++ ".html"].
Proof.
  unfold get_cache_path.
  destruct (Urllib.urlparse check_bracketed_host url "") as [r|e];
    cbn [mbind res_bind].
  - split.
    + intros H. injection H as <-. eauto.
    + intros (r' & Hr & ->). injection Hr as <-. reflexivity.
  - split; [discriminate|]. intros (r' & Hr & _). discriminate.
Qed.

Lemma get_cache_path_none_html (url p : string) :
  get_cache_path CACHE_DIR guess_extension check_bracketed_host url None = Ok p ->
  Py.endswith p ".html" = true.
Proof.
  intros H. apply get_cache_path_none in H as (r & _ & ->).
  unfold PosixPath.join. simpl.
  destruct (join_step_ends (PosixPath.join_step CACHE_DIR (Urllib.netloc r))
              (encode_url url ++ ".html")) as [q ->].
  rewrite <- str_app_assoc. apply endswith_app.
Qed.

(** Whether a path can be resolved does not depend on the content type. *)
Lemma get_cache_path_total (url : string) (ct1 ct2 : option string) (p : string) :
  get_cache_path CACHE_DIR guess_extension check_bracketed_host url ct1 = Ok p ->
  exists p',
    get_cache_path CACHE_DIR guess_extension check_bracketed_host url ct2 = Ok p'.
Proof.
  unfold get_cache_path.
  destruct (Urllib.urlparse check_bracketed_host url "") as [r|e];
    cbn [mbind res_bind]; [eauto|discriminate].
Qed.

(** C6: [is_cached] answers [True] exactly when there is a file at the path
    resolved without content type, the one with the [.html] extension, and
    the time since its modification is strictly below [max_age]. *)
Theorem is_cached_iff (fs : gmap string file) (now : Z) (url : string)
    (max_age : Z) :
  is_cached CACHE_DIR guess_extension check_bracketed_host fs now url max_age
  = Ok true
  <-> exists parsed f,
        Urllib.urlparse check_bracketed_host url EmptyString = Ok parsed
        /\ fs !! PosixPath.join CACHE_DIR
                   [Urllib.netloc parsed; encode_url url ++ ".html"] = Some f
        /\ (now - f_mtime f < max_age)%Z.
Proof.
  unfold is_cached.
  destruct (get_cache_path _ _ _ url None) as [p|e] eqn:Hp; cbn [mbind res_bind].
  - apply get_cache_path_none in Hp as (r & Hr & ->). split.
    + destruct (fs !! _) as [f|] eqn:Hf; [|discriminate].
      destruct (now - f_mtime f <? max_age)%Z eqn:Hlt; [|discriminate].
      intros _. exists r, f. apply Z.ltb_lt in Hlt. auto.
    + intros (r' & f & Hr' & Hf & Hlt). rewrite Hr in Hr'. injection Hr' as <-.
      rewrite Hf. apply Z.ltb_lt in Hlt. rewrite Hlt. reflexivity.
  - split; [discriminate|]. intros (r & f & Hr & _).
    assert (H : get_cache_path CACHE_DIR guess_extension check_bracketed_host
                  url None
                = Ok (PosixPath.join CACHE_DIR
                        [Urllib.netloc r; encode_url url ++ ".html"]))
      by (apply get_cache_path_none; eauto).
    congruence.
Qed.

(** C4: when [is_cached] answers [True], the path resolved again for
    serving ends in [.html] and holds a file; the route then returns the
    text read from it and leaves the store as it is, so the branch that
    answers with the [image] content type is not taken. A file whose path
    does not end in [.html] has no part in the answer of [is_cached]. *)
Theorem cache_hit_is_text (fs : gmap string file) (now : Z) (url : string)
    (max_age : Z) :
  is_cached CACHE_DIR guess_extension check_bracketed_host fs now url max_age
  = Ok true ->
  (exists p f,
     get_cache_path CACHE_DIR guess_extension check_bracketed_host url None = Ok p
     /\ Py.endswith p ".html" = true
     /\ fs !! p = Some f
     /\ forall net,
          max_age = DEFAULT_CACHE_EXPIRY ->
          is_allowed url ALLOW_URLS = true ->
          proxy_try CACHE_DIR guess_extension check_bracketed_host
            decode_utf8_replace parse_html str_soup net fs now url
          = (Ok (Body (decode_utf8_replace (f_content f))), fs))
  /\ (forall p' f',
        Py.endswith p' ".html" = false ->
        is_cached CACHE_DIR guess_extension check_bracketed_host
          (<[p' := f']> fs) now url max_age
        = is_cached CACHE_DIR guess_extension check_bracketed_host
            fs now url max_age).
Proof.
  intros Hc. split.
  - pose proof Hc as Hc'. unfold is_cached in Hc'.
    destruct (get_cache_path _ _ _ url None) as [p|e] eqn:Hp; [|discriminate].
    cbn [mbind res_bind] in Hc'.
    destruct (fs !! p) as [f|] eqn:Hf; [|discriminate].
    exists p, f. pose proof (get_cache_path_none_html _ _ Hp) as Hend.
    repeat split; try assumption.
    intros net -> Hallow.
    unfold proxy_try. rewrite Hallow. simpl negb. cbv iota.
    rewrite Hc, Hp.
    rewrite bool_decide_eq_true_2 by (rewrite Hf; eauto).
    rewrite Hend. unfold read_cache. rewrite Hf. reflexivity.
  - intros p' f' Hend. unfold is_cached.
    destruct (get_cache_path _ _ _ url None) as [p|e] eqn:Hp; [|reflexivity].
    cbn [mbind res_bind].
    rewrite lookup_insert_ne; [reflexivity|].
    intros ->. apply get_cache_path_none_html in Hp. congruence.
Qed.

(** C7: when the fetch fails, by the status or in the transport, the store
    after the request is the store before it; and when the request comes
    to the fetch, the URL being allowed and not served from the cache, the
    answer is the error page with the URL fetched and the status or the
    text of the exception. *)
Theorem fetch_failure_page (net : string -> res http_response)
    (fs : gmap string file) (now : Z) (url_arg : string) (page : response) :
  url_arg <> EmptyString ->
  fetch_failed (with_scheme url_arg) (net (with_scheme url_arg)) page ->
  snd (proxy_full_async CACHE_DIR guess_extension check_bracketed_host
         decode_utf8_replace parse_html str_soup net fs now (Some url_arg))
  = fs
  /\ (is_allowed (with_scheme url_arg) ALLOW_URLS = true ->
      is_cached CACHE_DIR guess_extension check_bracketed_host
        fs now (with_scheme url_arg) DEFAULT_CACHE_EXPIRY = Ok false ->
      fst (proxy_full_async CACHE_DIR guess_extension check_bracketed_host
             decode_utf8_replace parse_html str_soup net fs now (Some url_arg))
      = page).
Proof.
  intros Hne Hfail. unfold proxy_full_async.
  destruct (Py.is_empty url_arg) eqn:He;
    [apply is_empty_spec in He; contradiction|].
  fold (with_scheme url_arg). set (url := with_scheme url_arg) in *.
  unfold proxy_try.
  destruct (is_allowed url ALLOW_URLS) eqn:Hallow; simpl negb; cbv iota;
    [|split; [reflexivity|discriminate]].
  destruct (is_cached _ _ _ fs now url DEFAULT_CACHE_EXPIRY) as [[|]|e] eqn:Hc;
    [|clear Hallow|split; [reflexivity|discriminate]].
  - split; [|discriminate].
    destruct (get_cache_path _ _ _ url None) as [p|e]; [|reflexivity].
    destruct (bool_decide (is_Some (fs !! p))).
    + destruct (Py.endswith p ".html"); destruct (read_cache _ fs p _);
        reflexivity.
    + inversion Hfail as [e He'|r Hs He'|r e Hs Hct Hr He'|r e Hs Hct Hr He'];
        try rewrite Hs; try (apply Z.eqb_neq in Hs; rewrite Hs); simpl negb;
        cbv iota; try reflexivity.
      all: destruct (get_cache_path _ _ _ url _) as [p'|e']; [|reflexivity].
      all: rewrite Hct; simpl negb; cbv iota; rewrite Hr; reflexivity.
  - assert (Hpath : exists p,
              get_cache_path CACHE_DIR guess_extension check_bracketed_host
                url None = Ok p).
    { unfold is_cached in Hc.
      destruct (get_cache_path _ _ _ url None) as [p|e]; [eauto|discriminate]. }
    destruct Hpath as [p0 Hp0].
    inversion Hfail as [e He'|r Hs He'|r e Hs Hct Hr He'|r e Hs Hct Hr He'];
      try rewrite Hs; try (apply Z.eqb_neq in Hs; rewrite Hs); simpl negb;
      cbv iota; try (split; reflexivity).
    all: destruct (get_cache_path_total url None
                     (Some (Py.lower (default "" (content_type_header r))))
                     p0 Hp0) as [p' ->].
    all: rewrite Hct; simpl negb; cbv iota; rewrite Hr; split; reflexivity.
Qed.

End Cache.

(** Witness of C4: the page of the sample store, asked for at time 2000. *)
Lemma cache_hit_is_text_sample :
  is_cached Sample.cache_dir Sample.guess_extension Sample.accept_host
    Sample.store 2000 "http://example.com/index" DEFAULT_CACHE_EXPIRY = Ok true
  /\ proxy_try Sample.cache_dir Sample.guess_extension Sample.accept_host
       Sample.decode Sample.no_parser Sample.no_serializer
       Sample.net_down Sample.store 2000 "http://example.com/index"
     = (Ok (Body "<html></html>"), Sample.store).
Proof.
  assert (Hc : is_cached Sample.cache_dir Sample.guess_extension Sample.accept_host
                 Sample.store 2000 "http://example.com/index" DEFAULT_CACHE_EXPIRY
               = Ok true) by (vm_compute; reflexivity).
  split; [exact Hc|].
  destruct (cache_hit_is_text Sample.cache_dir Sample.guess_extension
              Sample.accept_host Sample.decode Sample.no_parser
              Sample.no_serializer Sample.store 2000 "http://example.com/index"
              DEFAULT_CACHE_EXPIRY Hc)
    as [(p & f & Hp & _ & Hf & Hserve) _].
  rewrite (Hserve Sample.net_down eq_refl eq_refl).
  vm_compute in Hp. injection Hp as <-.
  vm_compute in Hf. injection Hf as <-. reflexivity.
Defined.

(** A URL that has its scheme is taken as it is. *)
Lemma with_scheme_id (url : string) :
  Py.startswith_any url ["http://"; "https://"] = true -> with_scheme url = url.
Proof. unfold with_scheme. intros ->. reflexivity. Qed.

(** Witness of C7: an allowed URL, not cached, and no network. *)
Lemma fetch_failure_page_sample :
  proxy_full_async Sample.cache_dir Sample.guess_extension Sample.accept_host
    Sample.decode Sample.no_parser Sample.no_serializer
    Sample.net_down Sample.store 2000 (Some "adventofcode.com/2023")
  = (ErrorPage "https://adventofcode.com/2023" "Cannot connect to host",
     Sample.store).
Proof.
  destruct (fetch_failure_page Sample.cache_dir Sample.guess_extension
              Sample.accept_host Sample.decode Sample.no_parser
              Sample.no_serializer Sample.net_down Sample.store 2000
              "adventofcode.com/2023"
              (ErrorPage "https://adventofcode.com/2023" "Cannot connect to host"))
    as [Hstore Hpage].
  - discriminate.
  - exact (transport_failed "https://adventofcode.com/2023"
             (ExternalError "Cannot connect to host")).
  - rewrite (surjective_pairing (proxy_full_async _ _ _ _ _ _ _ _ _ _)).
    rewrite Hstore, Hpage; [reflexivity|reflexivity|vm_compute; reflexivity].
Defined.

(** The same request when every origin answers 404. *)
Example fetch_404_sample :
  proxy_full_async Sample.cache_dir Sample.guess_extension Sample.accept_host
    Sample.decode Sample.no_parser Sample.no_serializer
    Sample.net_404 Sample.store 2000 (Some "adventofcode.com/2023")
  = (ErrorStatusPage "https://adventofcode.com/2023" 404, Sample.store).
Proof. vm_compute. reflexivity. Qed.

(** ** The empty document *)

(** C10: for [None] and for the empty string [rewrite_html] returns the
    empty string; the parser has no part in it, whatever it would do. *)
Theorem rewrite_html_falsy (check_bracketed_host : string -> res unit)
    (parse_html : string -> res soup_t) (str_soup : soup_t -> string)
    (base_url : string) :
  rewrite_html check_bracketed_host parse_html str_soup None base_url
  = Ok EmptyString
  /\ rewrite_html check_bracketed_host parse_html str_soup (Some EmptyString) base_url
     = Ok EmptyString.
Proof. split; reflexivity. Qed.

(** With a parser that raises on every call the answer is the same. *)
Example rewrite_html_falsy_no_parser :
  rewrite_html Sample.accept_host Sample.no_parser Sample.no_serializer
    (Some EmptyString) "https://example.com/" = Ok EmptyString
  /\ rewrite_html Sample.accept_host Sample.no_parser Sample.no_serializer
       (Some "<p>") "https://example.com/"
     = Raise (ExternalError "the parser was called").
Proof. split; reflexivity. Qed.

(** ** The srcset of an image *)

Lemma split_nonempty (sep : ascii) (s : string) : Py.split sep s <> [].
Proof.
  destruct s as [|c s]; simpl; [discriminate|].
  destruct (Ascii.eqb c sep); [discriminate|].
  destruct (Py.split sep s); discriminate.
Qed.

Lemma get_set_ne (k k' : string) (v : attr_value) (attrs : attrs_t) :
  k <> k' -> Bs4.get k' (Bs4.set k v attrs) = Bs4.get k' attrs.
Proof.
  intros Hne. induction attrs as [|[a w] attrs IH]; simpl.
  - destruct (String.eqb_spec k k'); [contradiction|reflexivity].
  - destruct (String.eqb_spec a k) as [->|Hak]; simpl.
    + destruct (String.eqb_spec k k'); [contradiction|reflexivity].
    + destruct (String.eqb a k'); [reflexivity|exact IH].
Qed.

Lemma get_set_eq (k : string) (v : attr_value) (attrs : attrs_t) :
  Bs4.get k (Bs4.set k v attrs) = Some v.
Proof.
  induction attrs as [|[a w] attrs IH]; simpl.
  - rewrite String.eqb_refl. reflexivity.
  - destruct (String.eqb_spec a k) as [->|Hak]; simpl.
    + rewrite String.eqb_refl. reflexivity.
    + apply String.eqb_neq in Hak. rewrite Hak. exact IH.
Qed.

Section Srcset.

Variable check : string -> res unit.

(** The loop appends, candidate by candidate and in their order, what
    [candidate_rewritten] describes; it raises when a rewriting does. *)
Lemma srcset_loop_spec (base_url : string) (candidates srcsets out : list string) :
  srcset_loop check base_url candidates srcsets = Ok out
  <-> exists outs,
        out = (srcsets ++ outs)%list
        /\ Forall2 (candidate_rewritten (fun u => rewrite_url check u base_url))
             candidates outs.
Proof.
  revert srcsets. induction candidates as [|c rest IH]; intros srcsets.
  - simpl. split.
    + intros H. injection H as <-. exists []. rewrite app_nil_r. auto.
    + intros (outs & -> & HF). inversion HF. rewrite app_nil_r. reflexivity.
  - cbn [srcset_loop]. unfold srcset_step.
    destruct (Py.split " " (Py.strip c)) as [|url ds] eqn:Hsplit;
      [exfalso; exact (split_nonempty _ _ Hsplit)|].
    destruct (rewrite_url check url base_url) as [r|e] eqn:Hr;
      cbn [mbind res_bind].
    + rewrite IH. split.
      * intros (outs & -> & HF).
        exists (Py.join " " (r :: ds) :: outs). split.
        -- rewrite <- app_assoc. reflexivity.
        -- constructor; [|exact HF]. exists url, ds, r. auto.
      * intros (outs & -> & HF).
        inversion HF as [|c' o rest' outs' Hc HF']; subst.
        destruct Hc as (url' & ds' & r' & Es & Er & ->).
        rewrite Hsplit in Es. injection Es as <- <-.
        rewrite Hr in Er. injection Er as <-.
        exists outs'. split; [|exact HF'].
        rewrite <- app_assoc. reflexivity.
    + split; [discriminate|].
      intros (outs & -> & HF).
      inversion HF as [|c' o rest' outs' Hc HF']; subst.
      destruct Hc as (url' & ds' & r' & Es & Er & _).
      rewrite Hsplit in Es. injection Es as <- <-. congruence.
Qed.

Lemma srcset_loop_functional (base_url value : string) (outs outs' : list string) :
  Forall2 (candidate_rewritten (fun u => rewrite_url check u base_url))
    (Py.split "," value) outs ->
  srcset_loop check base_url (Py.split "," value) [] = Ok outs' ->
  outs' = outs.
Proof.
  intros HF Hl.
  assert (Hl2 : srcset_loop check base_url (Py.split "," value) [] = Ok outs)
    by (apply srcset_loop_spec; exists outs; auto).
  congruence.
Qed.

(** C8, as the code has it. An [img] tag that has a [src] and a srcset
    that is a string and not empty gets a new srcset: the value is split on
    commas; each candidate is stripped and split on single spaces, its
    first piece rewritten by the URL rule and the pieces after it kept in
    their order and joined by one space; the candidates are joined, in
    their order, by a comma and a space. An [img] tag without [src] is not
    among the tags of the loop and keeps its attributes. *)
Theorem rewrite_img_srcset (base_url : string) (attrs : attrs_t) :
  (forall src value attrs',
     Bs4.get "src" attrs = Some (AStr src) ->
     Bs4.get "srcset" attrs = Some (AStr value) ->
     value <> EmptyString ->
     (rewrite_img check base_url "img" attrs = Ok attrs'
      <-> exists src' outs,
            rewrite_url check src base_url = Ok src'
            /\ Forall2 (candidate_rewritten (fun u => rewrite_url check u base_url))
                 (Py.split "," value) outs
            /\ attrs' = Bs4.set "srcset" (AStr (Py.join ", " outs))
                          (Bs4.set "src" (AStr src') attrs)))
  /\ (Bs4.get "src" attrs = None ->
      rewrite_img check base_url "img" attrs = Ok attrs).
Proof.
  split.
  - intros src value attrs' Hsrc Hset Hne. unfold rewrite_img.
    rewrite bool_decide_eq_true_2 by (rewrite Hsrc; eauto).
    simpl andb. cbv iota.
    unfold rewrite_attr. rewrite Hsrc. unfold rewrite_value.
    destruct (rewrite_url check src base_url) as [src'|e] eqn:Hr;
      cbn [mbind res_bind].
    + rewrite get_set_ne by discriminate. rewrite Hset.
      assert (Ht : Bs4.truthy (Some (AStr value)) = true)
        by (destruct value; [congruence|reflexivity]).
      rewrite Ht. unfold rewrite_srcset.
      destruct (srcset_loop check base_url (Py.split "," value) [])
        as [outs|e] eqn:Hl; cbn [mbind res_bind].
      * split.
        -- intros H. injection H as <-.
           apply srcset_loop_spec in Hl as (outs' & -> & HF).
           exists src', outs'. auto.
        -- intros (s2 & o2 & Hs2 & HF2 & ->). injection Hs2 as <-.
           rewrite (srcset_loop_functional _ _ _ _ HF2 Hl). reflexivity.
      * split; [discriminate|]. intros (s2 & o2 & _ & HF2 & _).
        assert (Hl2 : srcset_loop check base_url (Py.split "," value) [] = Ok o2)
          by (apply srcset_loop_spec; exists o2; auto).
        congruence.
    + split; [discriminate|]. intros (s2 & o2 & Hs2 & _). discriminate.
  - intros Hnone. unfold rewrite_img.
    rewrite bool_decide_eq_false_2; [reflexivity|].
    rewrite Hnone. intros [x Hx]. discriminate.
Qed.

End Srcset.

(** The example of the specification on an image that has a [src]; this is
    the witness of C8. *)
Lemma rewrite_img_srcset_sample :
  rewrite_img Sample.accept_host "https://example.com/" "img"
    [("src", AStr "a.png"); ("srcset", AStr "a.png 1x, b.png 2x")]
  = Ok [("src", AStr "/cachingproxy/proxy?url=https%3A//example.com/a.png");
        ("srcset",
         AStr ("/cachingproxy/proxy?url=https%3A//example.com/a.png 1x, "
               ++ "/cachingproxy/proxy?url=https%3A//example.com/b.png 2x"))].
Proof.
  destruct (rewrite_img_srcset Sample.accept_host "https://example.com/"
              [("src", AStr "a.png"); ("srcset", AStr "a.png 1x, b.png 2x")])
    as [H _].
  apply (H "a.png" "a.png 1x, b.png 2x");
    [reflexivity|reflexivity|discriminate|].
  exists "/cachingproxy/proxy?url=https%3A//example.com/a.png",
    ["/cachingproxy/proxy?url=https%3A//example.com/a.png 1x";
     "/cachingproxy/proxy?url=https%3A//example.com/b.png 2x"].
  split; [reflexivity|split; [|reflexivity]].
  repeat constructor.
  - exists "a.png", ["1x"], "/cachingproxy/proxy?url=https%3A//example.com/a.png".
    repeat split.
  - exists "b.png", ["2x"], "/cachingproxy/proxy?url=https%3A//example.com/b.png".
    repeat split.
Defined.

(** C8 as stated fails twice. A descriptor set off by a tab is not a piece
    of its own: the candidate is rewritten as one URL, where the wording of
    the specification keeps [1x]. And the image of the specification's own
    example, which has no [src], keeps its srcset as it is. *)
Lemma srcset_not_by_words :
  rewrite_srcset Sample.accept_host ("a.png" ++ Sample.tab ++ "1x")
    "https://example.com/"
  = Ok "/cachingproxy/proxy?url=https%3A//example.com/a.png1x"
  /\ srcset_by_words
       (fun u => rewrite_url Sample.accept_host u "https://example.com/")
       ("a.png" ++ Sample.tab ++ "1x")
     = Ok "/cachingproxy/proxy?url=https%3A//example.com/a.png 1x"
  /\ rewrite_img Sample.accept_host "https://example.com/" "img"
       [("srcset", AStr "a.png 1x, b.png 2x")]
     = Ok [("srcset", AStr "a.png 1x, b.png 2x")].
Proof. repeat split. Qed.

(** ** The document tree *)

(** Induction on a node with the property at hand for all its children. *)
Lemma node_ind_nested (P : node -> Prop) :
  (forall name attrs ch, Forall P ch -> P (Tag name attrs ch)) ->
  (forall s, P (NavigableString s)) ->
  forall n, P n.
Proof.
  intros HT HS. fix IH 1. intros [name attrs ch|s]; [apply HT|apply HS].
  revert ch. fix IHl 1. intros [|c r]; constructor; [apply IH|apply IHl].
Qed.

Lemma matches_by_name (name nm : string) (attrs : attrs_t) (ch : list node) :
  Bs4.matches (by_name name) (Tag nm attrs ch) = String.eqb nm name.
Proof. simpl. rewrite !andb_true_r. reflexivity. Qed.

Lemma matches_children (c : Bs4.criteria) (nm : string) (attrs : attrs_t)
    (ch ch' : list node) :
  Bs4.matches c (Tag nm attrs ch) = Bs4.matches c (Tag nm attrs ch').
Proof. reflexivity. Qed.

Lemma matches_find_in (c : Bs4.criteria) (n : node) :
  Bs4.matches c n = true -> Bs4.find_in c n = Some [].
Proof.
  destruct n as [nm a ch|s]; [|discriminate].
  intros H. cbn [Bs4.find_in]. rewrite H. reflexivity.
Qed.

Section FirstSome.

Context {A B : Type}.
Variable g : A -> option B.

Lemma first_some_found (k j : nat) (l : list A) (b : B) :
  Bs4.first_some g k l = Some (j, b) ->
  exists i x, j = k + i /\ l !! i = Some x /\ g x = Some b
              /\ Bs4.first_some g k (take i l) = None.
Proof.
  revert k. induction l as [|x l IH]; intros k; simpl; [discriminate|].
  destruct (g x) as [b'|] eqn:Hg.
  - intros H. injection H as <- <-. exists 0, x. repeat split; auto; lia.
  - intros H. destruct (IH _ H) as (i & y & -> & Hl & Hy & Hn).
    exists (S i), y. repeat split; auto; try lia.
    simpl. rewrite Hg. exact Hn.
Qed.

Lemma first_some_build (k i : nat) (l : list A) (x : A) (b : B) :
  Bs4.first_some g k (take i l) = None -> l !! i = Some x -> g x = Some b ->
  Bs4.first_some g k l = Some (k + i, b).
Proof.
  revert k i. induction l as [|y l IH]; intros k i Hn Hl Hg; [discriminate|].
  destruct i as [|i]; simpl in *.
  - injection Hl as ->. rewrite Hg. f_equal. f_equal. lia.
  - destruct (g y); [discriminate|].
    rewrite (IH (S k) i Hn Hl Hg). f_equal. f_equal. lia.
Qed.

Lemma first_some_none (k : nat) (l : list A) :
  Bs4.first_some g k l = None <-> Forall (fun x => g x = None) l.
Proof.
  revert k. induction l as [|y l IH]; intros k; simpl.
  - split; auto.
  - destruct (g y) eqn:Hg.
    + split; [discriminate|]. intros H. inversion H. congruence.
    + rewrite IH. split; [auto|]. intros H. inversion H. assumption.
Qed.

Lemma first_some_ext (g' : A -> option B) (k : nat) (l : list A) :
  Forall (fun x => g' x = g x) l ->
  Bs4.first_some g' k l = Bs4.first_some g k l.
Proof.
  intros H. revert k. induction H as [|x l Hx _ IH]; intros k; simpl;
    [reflexivity|].
  rewrite Hx, IH. reflexivity.
Qed.

End FirstSome.

Lemma first_some_map {A A' B : Type} (g : A' -> option B) (h : A -> A')
    (k : nat) (l : list A) :
  Bs4.first_some g k (List.map h l) = Bs4.first_some (fun x => g (h x)) k l.
Proof.
  revert k. induction l as [|x l IH]; intros k; simpl; [reflexivity|].
  rewrite IH. reflexivity.
Qed.

Lemma take_alter {A : Type} (h : A -> A) (i : nat) (l : list A) :
  take i (alter h i l) = take i l.
Proof.
  revert i. induction l as [|x l IH]; intros [|i]; simpl; try reflexivity.
  f_equal. apply IH.
Qed.

(** ** Searching a document *)

(** A search that succeeds designates a tag that matches. *)
Lemma find_in_spec (c : Bs4.criteria) (p : Bs4.path_t) (n : node) :
  Bs4.find_in c n = Some p ->
  exists m, Bs4.node_at p n = Some m /\ Bs4.matches c m = true.
Proof.
  revert n. induction p as [|i p IH]; intros [nm a ch|s]; cbn [Bs4.find_in];
    try discriminate.
  - destruct (Bs4.matches c (Tag nm a ch)) eqn:Hm.
    + intros _. exists (Tag nm a ch). auto.
    + destruct (Bs4.first_some _ 0 ch) as [[j q]|]; discriminate.
  - destruct (Bs4.matches c (Tag nm a ch)) eqn:Hm; [discriminate|].
    destruct (Bs4.first_some _ 0 ch) as [[j q]|] eqn:Hf; [|discriminate].
    intros H. injection H as -> ->.
    apply first_some_found in Hf as (i' & x & Hi & Hl & Hx & _).
    simpl in Hi. subst i'. cbn [Bs4.node_at]. rewrite Hl. apply IH. exact Hx.
Qed.

Lemma node_at_update_in (p : Bs4.path_t) (f : node -> node) (n m : node) :
  Bs4.node_at p n = Some m ->
  Bs4.node_at p (Bs4.update_in p f n) = Some (f m).
Proof.
  revert n. induction p as [|i p IH]; intros n; cbn [Bs4.node_at Bs4.update_in].
  - intros H. injection H as ->. reflexivity.
  - destruct n as [nm a ch|s]; [|discriminate].
    destruct (ch !! i) as [x|] eqn:Hl; [|discriminate].
    intros H. rewrite list_lookup_alter_eq, Hl. simpl. apply IH. exact H.
Qed.

(** A mutation that leaves the first match a match leaves it the first. *)
Lemma find_in_update_in (c : Bs4.criteria) (p : Bs4.path_t) (f : node -> node)
    (n m : node) :
  Bs4.find_in c n = Some p -> Bs4.node_at p n = Some m ->
  Bs4.matches c (f m) = true ->
  Bs4.find_in c (Bs4.update_in p f n) = Some p.
Proof.
  revert n. induction p as [|i p IH]; intros [nm a ch|s];
    cbn [Bs4.find_in Bs4.update_in Bs4.node_at]; try discriminate.
  - intros _ H Hm. injection H as <-. apply matches_find_in. exact Hm.
  - destruct (Bs4.matches c (Tag nm a ch)) eqn:Hmat; [discriminate|].
    rewrite (matches_children c nm a _ ch), Hmat.
    destruct (Bs4.first_some _ 0 ch) as [[j q]|] eqn:Hf; [|discriminate].
    intros H. injection H as -> ->.
    apply first_some_found in Hf as (i' & x & Hi & Hl & Hx & Hn).
    simpl in Hi. subst i'. rewrite Hl. intros Hat Hm.
    rewrite (first_some_build _ 0 i _ (Bs4.update_in p f x) p); [reflexivity| | |].
    + rewrite take_alter. exact Hn.
    + rewrite list_lookup_alter_eq, Hl. reflexivity.
    + apply (IH x); assumption.
Qed.

Lemma map_alter_same {A B : Type} (h : A -> B) (u : A -> A) (i : nat) (l : list A) :
  (forall x, l !! i = Some x -> h (u x) = h x) ->
  List.map h (alter u i l) = List.map h l.
Proof.
  revert i. induction l as [|y l IH]; intros [|i] H; simpl; try reflexivity.
  - rewrite H; reflexivity.
  - f_equal. apply IH. exact H.
Qed.

Lemma lookup_map {A B : Type} (h : A -> B) (i : nat) (l : list A) :
  List.map h l !! i = option_map h (l !! i).
Proof.
  revert i. induction l as [|y l IH]; intros [|i]; simpl; try reflexivity.
  apply IH.
Qed.

(** What is read through [map_attrs] is not touched by a mutation that
    [map_attrs] does not see. *)
Lemma map_attrs_update_in (g : attrs_t -> attrs_t) (f : node -> node)
    (p : Bs4.path_t) (n : node) :
  (forall m, Bs4.map_attrs g (f m) = Bs4.map_attrs g m) ->
  Bs4.map_attrs g (Bs4.update_in p f n) = Bs4.map_attrs g n.
Proof.
  intros Hf. revert n. induction p as [|i p IH]; intros n; cbn [Bs4.update_in].
  - apply Hf.
  - destruct n as [nm a ch|s]; [|reflexivity].
    cbn [Bs4.map_attrs]. f_equal. apply map_alter_same. intros x _. apply IH.
Qed.

Lemma node_at_map_attrs (g : attrs_t -> attrs_t) (p : Bs4.path_t) (n : node) :
  Bs4.node_at p (Bs4.map_attrs g n) = option_map (Bs4.map_attrs g) (Bs4.node_at p n).
Proof.
  revert n. induction p as [|i p IH]; intros n; cbn [Bs4.node_at]; [reflexivity|].
  destruct n as [nm a ch|s]; [|reflexivity].
  cbn [Bs4.map_attrs]. rewrite lookup_map.
  destruct (ch !! i) as [x|]; [apply IH|reflexivity].
Qed.

Lemma map_attrs_set_attr (key : string) (v : attr_value) (m : node) :
  Bs4.skeleton (Bs4.set_attr key v m) = Bs4.skeleton m.
Proof. destruct m; reflexivity. Qed.

Lemma remove_set (key : string) (v : attr_value) (attrs : attrs_t) :
  Bs4.remove key (Bs4.set key v attrs) = Bs4.remove key attrs.
Proof.
  induction attrs as [|[k w] attrs IH]; simpl.
  - rewrite String.eqb_refl. reflexivity.
  - destruct (String.eqb k key) eqn:Hk; simpl; rewrite Hk; [reflexivity|].
    f_equal. exact IH.
Qed.

Lemma get_remove_ne (key k' : string) (attrs : attrs_t) :
  key <> k' -> Bs4.get k' (Bs4.remove key attrs) = Bs4.get k' attrs.
Proof.
  intros Hne. induction attrs as [|[k w] attrs IH]; simpl; [reflexivity|].
  destruct (String.eqb_spec k key) as [->|Hk]; simpl.
  - destruct (String.eqb_spec key k'); [contradiction|exact IH].
  - destruct (String.eqb k k'); [reflexivity|exact IH].
Qed.

Lemma without_set_attr (key : string) (v : attr_value) (m : node) :
  Bs4.map_attrs (Bs4.remove key) (Bs4.set_attr key v m)
  = Bs4.map_attrs (Bs4.remove key) m.
Proof.
  destruct m as [nm a ch|s]; [|reflexivity].
  cbn [Bs4.set_attr Bs4.map_attrs]. rewrite remove_set. reflexivity.
Qed.

Lemma mapM_Forall2 {A B : Type} (h : A -> res B) (l : list A) (l' : list B) :
  Bs4.mapM h l = Ok l' <-> Forall2 (fun x y => h x = Ok y) l l'.
Proof.
  revert l'. induction l as [|x l IH]; intros l'; simpl.
  - split.
    + intros H. injection H as <-. constructor.
    + intros H. inversion H. reflexivity.
  - destruct (h x) as [y|e] eqn:Hx; cbn [mbind res_bind].
    + destruct (Bs4.mapM h l) as [ys|e] eqn:Hl; cbn [mbind res_bind].
      * split.
        -- intros H. injection H as <-. constructor; [exact Hx|].
           apply IH. reflexivity.
        -- intros H. inversion H as [|x' y' l0 l0' Hy Hr]; subst.
           apply IH in Hr. congruence.
      * split; [discriminate|].
        intros H. inversion H as [|x' y' l0 l0' Hy Hr]; subst.
        apply IH in Hr. discriminate.
    + split; [discriminate|].
      intros H. inversion H as [|x' y' l0 l0' Hy Hr]; subst. congruence.
Qed.

(** A loop over the tags changes attributes only. *)
Lemma map_tags_skeleton (f : string -> attrs_t -> res attrs_t) (n n' : node) :
  Bs4.map_tags f n = Ok n' -> Bs4.skeleton n' = Bs4.skeleton n.
Proof.
  revert n'. induction n as [nm a ch IH|s] using node_ind_nested; intros n';
    cbn [Bs4.map_tags].
  - destruct (f nm a) as [a'|e]; cbn [mbind res_bind]; [|discriminate].
    destruct (Bs4.mapM (Bs4.map_tags f) ch) as [ch'|e] eqn:Hch;
      cbn [mbind res_bind]; [|discriminate].
    intros H. injection H as <-. unfold Bs4.skeleton. cbn [Bs4.map_attrs].
    f_equal. apply mapM_Forall2 in Hch.
    induction Hch as [|x y l l' Hxy _ IHl]; [reflexivity|].
    inversion IH as [|? ? Hx Hl]; subst. simpl. f_equal; [|apply IHl; exact Hl].
    apply Hx. exact Hxy.
  - intros H. injection H as <-. reflexivity.
Qed.

Lemma mapM_map_tags_skeleton (f : string -> attrs_t -> res attrs_t)
    (soup soup' : soup_t) :
  Bs4.mapM (Bs4.map_tags f) soup = Ok soup' ->
  List.map Bs4.skeleton soup' = List.map Bs4.skeleton soup.
Proof.
  intros H. apply mapM_Forall2 in H.
  induction H as [|x y l l' Hxy _ IH]; [reflexivity|].
  simpl. f_equal; [exact (map_tags_skeleton _ _ _ Hxy)|exact IH].
Qed.

(** A search by name and a count by name see the skeleton only. *)
Lemma find_in_skeleton (name : string) (n : node) :
  Bs4.find_in (by_name name) (Bs4.skeleton n) = Bs4.find_in (by_name name) n.
Proof.
  induction n as [nm a ch IH|s] using node_ind_nested; [|reflexivity].
  unfold Bs4.skeleton. cbn [Bs4.map_attrs Bs4.find_in].
  rewrite !matches_by_name. destruct (String.eqb nm name); [reflexivity|].
  rewrite first_some_map.
  rewrite (first_some_ext (Bs4.find_in (by_name name))
             (fun x => Bs4.find_in (by_name name) (Bs4.map_attrs (fun _ => []) x)));
    [reflexivity|exact IH].
Qed.

Lemma count_in_skeleton (name : string) (n : node) :
  Bs4.count_in name (Bs4.skeleton n) = Bs4.count_in name n.
Proof.
  induction n as [nm a ch IH|s] using node_ind_nested; [|reflexivity].
  unfold Bs4.skeleton. cbn [Bs4.map_attrs Bs4.count_in]. f_equal.
  rewrite List.map_map. f_equal.
  induction IH as [|x l Hx _ IHl]; [reflexivity|].
  simpl. f_equal; [exact Hx|exact IHl].
Qed.

Lemma find_in_none_count (name : string) (n : node) :
  Bs4.find_in (by_name name) n = None -> Bs4.count_in name n = 0.
Proof.
  induction n as [nm a ch IH|s] using node_ind_nested; [|reflexivity].
  cbn [Bs4.find_in Bs4.count_in]. rewrite matches_by_name.
  destruct (String.eqb nm name); [discriminate|].
  destruct (Bs4.first_some _ 0 ch) as [[j q]|] eqn:Hf; [discriminate|].
  intros _. apply first_some_none in Hf. simpl.
  induction IH as [|x l Hx _ IHl]; [reflexivity|].
  inversion Hf as [|? ? Hfx Hfl]; subst. simpl.
  rewrite (Hx Hfx), (IHl Hfl). reflexivity.
Qed.

Lemma list_sum_alter {A : Type} (h : A -> nat) (u : A -> A) (i : nat)
    (l : list A) (x : A) :
  l !! i = Some x ->
  list_sum (List.map h (alter u i l)) + h x = list_sum (List.map h l) + h (u x).
Proof.
  revert i. induction l as [|y l IH]; intros [|i] H; simpl in *; try discriminate.
  - injection H as ->. clear IH. lia.
  - specialize (IH i H). unfold alter in IH. lia.
Qed.

(** The count after a mutation, from the count before it and the counts
    in the tag mutated. *)
Lemma count_in_update_in (name : string) (p : Bs4.path_t) (f : node -> node)
    (n m : node) :
  Bs4.node_at p n = Some m ->
  Bs4.count_in name (Bs4.update_in p f n) + Bs4.count_in name m
  = Bs4.count_in name n + Bs4.count_in name (f m).
Proof.
  revert n. induction p as [|i p IH]; intros n; cbn [Bs4.node_at Bs4.update_in].
  - intros H. injection H as ->. lia.
  - destruct n as [nm a ch|s]; [|discriminate].
    destruct (ch !! i) as [x|] eqn:Hl; [|discriminate].
    intros H. cbn [Bs4.count_in].
    pose proof (list_sum_alter (Bs4.count_in name) (Bs4.update_in p f) i ch x Hl)
      as Hsum.
    specialize (IH x H). lia.
Qed.

(** ** The same, for the document under the [BeautifulSoup] object *)

Lemma find_spec (c : Bs4.criteria) (p : Bs4.path_t) (soup : soup_t) :
  Bs4.find c soup = Some p ->
  exists m, Bs4.soup_at p soup = Some m /\ Bs4.matches c m = true.
Proof.
  unfold Bs4.find.
  destruct (Bs4.first_some _ 0 soup) as [[i q]|] eqn:Hf; [|discriminate].
  intros H. injection H as <-.
  apply first_some_found in Hf as (i' & x & Hi & Hl & Hx & _).
  simpl in Hi. subst i'. cbn [Bs4.soup_at]. rewrite Hl.
  apply find_in_spec. exact Hx.
Qed.

Lemma soup_at_update (p : Bs4.path_t) (f : node -> node) (soup : soup_t) (m : node) :
  Bs4.soup_at p soup = Some m ->
  Bs4.soup_at p (Bs4.update p f soup) = Some (f m).
Proof.
  destruct p as [|i p]; cbn [Bs4.soup_at Bs4.update]; [discriminate|].
  destruct (soup !! i) as [x|] eqn:Hl; [|discriminate].
  intros H. rewrite list_lookup_alter_eq, Hl. simpl.
  apply node_at_update_in. exact H.
Qed.

Lemma find_update (c : Bs4.criteria) (p : Bs4.path_t) (f : node -> node)
    (soup : soup_t) (m : node) :
  Bs4.find c soup = Some p -> Bs4.soup_at p soup = Some m ->
  Bs4.matches c (f m) = true ->
  Bs4.find c (Bs4.update p f soup) = Some p.
Proof.
  unfold Bs4.find.
  destruct (Bs4.first_some _ 0 soup) as [[i q]|] eqn:Hf; [|discriminate].
  intros H. injection H as <-.
  apply first_some_found in Hf as (i' & x & Hi & Hl & Hx & Hn).
  simpl in Hi. subst i'. cbn [Bs4.soup_at Bs4.update]. rewrite Hl.
  intros Hat Hm.
  rewrite (first_some_build _ 0 i _ (Bs4.update_in q f x) q); [reflexivity| | |].
  - rewrite take_alter. exact Hn.
  - rewrite list_lookup_alter_eq, Hl. reflexivity.
  - apply (find_in_update_in c q f x m); assumption.
Qed.

Lemma count_update (name : string) (p : Bs4.path_t) (f : node -> node)
    (soup : soup_t) (m : node) :
  Bs4.soup_at p soup = Some m ->
  Bs4.count name (Bs4.update p f soup) + Bs4.count_in name m
  = Bs4.count name soup + Bs4.count_in name (f m).
Proof.
  destruct p as [|i p]; cbn [Bs4.soup_at Bs4.update]; [discriminate|].
  destruct (soup !! i) as [x|] eqn:Hl; [|discriminate].
  intros H. unfold Bs4.count.
  pose proof (list_sum_alter (Bs4.count_in name) (Bs4.update_in p f) i soup x Hl).
  pose proof (count_in_update_in name p f x m H). lia.
Qed.

Lemma find_none_count (name : string) (soup : soup_t) :
  Bs4.find (by_name name) soup = None -> Bs4.count name soup = 0.
Proof.
  unfold Bs4.find, Bs4.count.
  destruct (Bs4.first_some _ 0 soup) as [[i q]|] eqn:Hf; [discriminate|].
  intros _. apply first_some_none in Hf.
  induction Hf as [|x l Hx _ IH]; [reflexivity|].
  simpl. rewrite (find_in_none_count _ _ Hx), IH. reflexivity.
Qed.

Lemma find_skeleton (name : string) (soup soup' : soup_t) :
  List.map Bs4.skeleton soup = List.map Bs4.skeleton soup' ->
  Bs4.find (by_name name) soup = Bs4.find (by_name name) soup'.
Proof.
  intros H.
  assert (E : forall s, Bs4.find (by_name name) s
                        = Bs4.find (by_name name) (List.map Bs4.skeleton s)).
  { intros s. unfold Bs4.find. rewrite first_some_map.
    rewrite (first_some_ext (Bs4.find_in (by_name name))
               (fun x => Bs4.find_in (by_name name) (Bs4.skeleton x)));
      [reflexivity|].
    apply Forall_forall. intros x _. apply find_in_skeleton. }
  rewrite (E soup), (E soup'), H. reflexivity.
Qed.

Lemma count_skeleton (name : string) (soup soup' : soup_t) :
  List.map Bs4.skeleton soup = List.map Bs4.skeleton soup' ->
  Bs4.count name soup = Bs4.count name soup'.
Proof.
  intros H.
  assert (E : forall s, Bs4.count name s
                        = Bs4.count name (List.map Bs4.skeleton s)).
  { intros s. unfold Bs4.count. rewrite List.map_map. f_equal.
    apply List.map_ext. intros x. symmetry. apply count_in_skeleton. }
  rewrite (E soup), (E soup'), H. reflexivity.
Qed.

Lemma map_attrs_update (g : attrs_t -> attrs_t) (f : node -> node)
    (p : Bs4.path_t) (soup : soup_t) :
  (forall m, Bs4.map_attrs g (f m) = Bs4.map_attrs g m) ->
  List.map (Bs4.map_attrs g) (Bs4.update p f soup)
  = List.map (Bs4.map_attrs g) soup.
Proof.
  intros Hf. destruct p as [|i p]; [reflexivity|]. cbn [Bs4.update].
  apply map_alter_same. intros x _. apply map_attrs_update_in. exact Hf.
Qed.

Lemma soup_at_map_attrs (g : attrs_t -> attrs_t) (p : Bs4.path_t) (soup : soup_t) :
  Bs4.soup_at p (List.map (Bs4.map_attrs g) soup)
  = option_map (Bs4.map_attrs g) (Bs4.soup_at p soup).
Proof.
  destruct p as [|i p]; [reflexivity|]. cbn [Bs4.soup_at].
  rewrite lookup_map. destruct (soup !! i) as [x|]; [|reflexivity].
  apply node_at_map_attrs.
Qed.

(** ** The base tag and the viewport *)

Lemma matches_by_name_inv (name : string) (m : node) :
  Bs4.matches (by_name name) m = true -> exists attrs ch, m = Tag name attrs ch.
Proof.
  destruct m as [nm a ch|s]; [|discriminate].
  rewrite matches_by_name. intros H. apply String.eqb_eq in H. subst nm. eauto.
Qed.

Lemma count_in_insert0 (name nm : string) (a : attrs_t) (ch : list node) (c : node) :
  Bs4.count_in name (Bs4.insert0 c (Tag nm a ch))
  = Bs4.count_in name (Tag nm a ch) + Bs4.count_in name c.
Proof. cbn [Bs4.insert0 Bs4.count_in]. simpl. lia. Qed.

Lemma count_in_append (name nm : string) (a : attrs_t) (ch : list node) (c : node) :
  Bs4.count_in name (Bs4.append c (Tag nm a ch))
  = Bs4.count_in name (Tag nm a ch) + Bs4.count_in name c.
Proof.
  cbn [Bs4.append Bs4.count_in]. rewrite List.map_app, list_sum_app. simpl. lia.
Qed.

Section BaseTag.

Variable check_bracketed_host : string -> res unit.

Lemma rewrite_links_skeleton (soup soup' : soup_t) (base_url : string) :
  rewrite_links check_bracketed_host soup base_url = Ok soup' ->
  List.map Bs4.skeleton soup' = List.map Bs4.skeleton soup.
Proof.
  unfold rewrite_links.
  destruct (Bs4.mapM (Bs4.map_tags (rewrite_a _ base_url)) soup) as [s1|] eqn:H1;
    cbn [mbind res_bind]; [|discriminate].
  destruct (Bs4.mapM (Bs4.map_tags (rewrite_img _ base_url)) s1) as [s2|] eqn:H2;
    cbn [mbind res_bind]; [|discriminate].
  destruct (Bs4.mapM (Bs4.map_tags (rewrite_link _ base_url)) s2) as [s3|] eqn:H3;
    cbn [mbind res_bind]; [|discriminate].
  destruct (Bs4.mapM (Bs4.map_tags (rewrite_script _ base_url)) s3) as [s4|] eqn:H4;
    cbn [mbind res_bind]; [|discriminate].
  intros H5.
  apply mapM_map_tags_skeleton in H1, H2, H3, H4, H5. congruence.
Qed.

(** The first [base] tag, when there is one, carries the target afterwards;
    when there is none the document is as before and the tag is new. *)
Lemma set_base_target_spec (soup : soup_t) :
  List.map Bs4.skeleton (fst (set_base_target soup)) = List.map Bs4.skeleton soup
  /\ (forall p, Bs4.find (by_name "base") soup = Some p ->
        exists a ch,
          Bs4.soup_at p (fst (set_base_target soup)) = Some (Tag "base" a ch)
          /\ Bs4.get "target" a = Some (AStr "_self"))
  /\ (Bs4.find (by_name "base") soup = None ->
        set_base_target soup = (soup, Tag "base" [("target", AStr "_self")] [])).
Proof.
  unfold set_base_target.
  destruct (Bs4.find (by_name "base") soup) as [p|] eqn:Hf.
  - cbn [fst]. split; [|split; [|discriminate]].
    + apply (map_attrs_update (fun _ => [])). intros m. apply map_attrs_set_attr.
    + intros p' Hp'. injection Hp' as <-.
      destruct (find_spec _ _ _ Hf) as (m & Hm & Hmat).
      apply matches_by_name_inv in Hmat as (a & ch & ->).
      exists (Bs4.set "target" (AStr "_self") a), ch. split.
      * apply (soup_at_update p (Bs4.set_attr "target" (AStr "_self")) soup _ Hm).
      * apply get_set_eq.
  - cbn [fst]. split; [reflexivity|split; [discriminate|reflexivity]].
Qed.

(** The exchange of the stylesheets changes [rel] attributes only. *)
Lemma swap_stylesheets_spec (soup soup' : soup_t) :
  swap_stylesheets soup = Ok soup' ->
  List.map Bs4.skeleton soup' = List.map Bs4.skeleton soup
  /\ List.map (Bs4.map_attrs (Bs4.remove "rel")) soup'
     = List.map (Bs4.map_attrs (Bs4.remove "rel")) soup.
Proof.
  unfold swap_stylesheets.
  destruct (Bs4.find (link_rel "stylesheet alternate") soup) as [q2|].
  - destruct (Bs4.find (link_rel "stylesheet") soup) as [q1|]; [|discriminate].
    intros H. injection H as <-. split.
    + unfold Bs4.skeleton.
      rewrite !(map_attrs_update (fun _ => [])); try reflexivity;
        intros m; apply map_attrs_set_attr.
    + rewrite !(map_attrs_update (Bs4.remove "rel")); try reflexivity;
        intros m; apply without_set_attr.
  - intros H. injection H as <-. split; reflexivity.
Qed.

(** C5, as the code has it, for a document whose rewriting comes to an
    end. With a [base] tag in the document nothing is inserted and the
    first [base] tag carries [target="_self"]. Without one, and with a
    [head], the new [base] tag is the first child of the first [head], the
    viewport [meta] tag its last child, and the document has one [base]
    tag. Without [base] and [head], and with an [html] tag, a new [head]
    that holds the new [base] tag is the first child of the first [html],
    and the document has one [base] tag. *)
Theorem rewrite_soup_base (soup out : soup_t) (base_url : string) :
  rewrite_soup check_bracketed_host soup base_url = Ok out ->
  (forall p,
     Bs4.find (by_name "base") soup = Some p ->
     List.map Bs4.skeleton out = List.map Bs4.skeleton soup
     /\ Bs4.find (by_name "base") out = Some p
     /\ exists a ch,
          Bs4.soup_at p out = Some (Tag "base" a ch)
          /\ Bs4.get "target" a = Some (AStr "_self"))
  /\ (forall h,
        Bs4.find (by_name "base") soup = None ->
        Bs4.find (by_name "head") soup = Some h ->
        Bs4.count "base" out = 1
        /\ Bs4.find (by_name "head") out = Some h
        /\ exists a ch,
             Bs4.soup_at h out
             = Some (Tag "head" a
                       (Tag "base" [("target", AStr "_self")] [] :: ch
                        ++ [meta_tag])%list))
  /\ (forall p,
        Bs4.find (by_name "base") soup = None ->
        Bs4.find (by_name "head") soup = None ->
        Bs4.find (by_name "html") soup = Some p ->
        Bs4.count "base" out = 1
        /\ Bs4.find (by_name "html") out = Some p
        /\ exists a ch,
             Bs4.soup_at p out
             = Some (Tag "html" a
                       (Tag "head" [] [Tag "base" [("target", AStr "_self")] []]
                        :: ch))).
Proof.
  unfold rewrite_soup.
  destruct (rewrite_links _ soup base_url) as [s1|] eqn:H1;
    cbn [mbind res_bind]; [|discriminate].
  apply rewrite_links_skeleton in H1.
  destruct (set_base_target_spec s1) as (Sk2 & Hbase & Hnobase).
  destruct (set_base_target s1) as [s2 bt]. cbn [fst] in Sk2, Hbase.
  destruct (swap_stylesheets s2) as [s3|] eqn:H3;
    cbn [mbind res_bind]; [|discriminate].
  apply swap_stylesheets_spec in H3 as [Sk3 Rel3].
  intros H. injection H as <-.
  assert (Sk : List.map Bs4.skeleton s3 = List.map Bs4.skeleton soup) by congruence.
  split; [|split].
  - intros p Hp.
    assert (Hp1 : Bs4.find (by_name "base") s1 = Some p)
      by (rewrite (find_skeleton "base" s1 soup H1); exact Hp).
    assert (Hp3 : Bs4.find (by_name "base") s3 = Some p)
      by (rewrite (find_skeleton "base" s3 soup Sk); exact Hp).
    unfold insert_base. rewrite Hp3. split; [exact Sk|split; [exact Hp3|]].
    destruct (Hbase p Hp1) as (a2 & ch2 & Hat2 & Ht2).
    pose proof (soup_at_map_attrs (Bs4.remove "rel") p s3) as E3.
    rewrite Rel3, soup_at_map_attrs, Hat2 in E3.
    destruct (Bs4.soup_at p s3) as [[nm a3 ch3|s]|]; try discriminate.
    cbn in E3. injection E3 as -> Ha _.
    exists a3, ch3. split; [reflexivity|].
    rewrite <- (get_remove_ne "rel" "target" a3) by discriminate.
    rewrite <- Ha. rewrite get_remove_ne by discriminate. exact Ht2.
  - intros h Hb Hh.
    assert (Hb1 : Bs4.find (by_name "base") s1 = None)
      by (rewrite (find_skeleton "base" s1 soup H1); exact Hb).
    assert (Hb3 : Bs4.find (by_name "base") s3 = None)
      by (rewrite (find_skeleton "base" s3 soup Sk); exact Hb).
    assert (Hh3 : Bs4.find (by_name "head") s3 = Some h)
      by (rewrite (find_skeleton "head" s3 soup Sk); exact Hh).
    specialize (Hnobase Hb1). injection Hnobase as _ ->.
    unfold insert_base. rewrite Hb3, Hh3.
    destruct (find_spec _ _ _ Hh3) as (m & Hm & Hmat).
    apply matches_by_name_inv in Hmat as (a & ch & ->).
    set (bt := Tag "base" [("target", AStr "_self")] []).
    assert (Hh4 : Bs4.find (by_name "head") (Bs4.update h (Bs4.insert0 bt) s3)
                  = Some h)
      by (apply (find_update _ _ _ _ _ Hh3 Hm); reflexivity).
    rewrite Hh4.
    pose proof (soup_at_update h (Bs4.insert0 bt) s3 _ Hm) as Hat4.
    pose proof (soup_at_update h (Bs4.append meta_tag) _ _ Hat4) as Hat5.
    split; [|split].
    + pose proof (count_update "base" h (Bs4.insert0 bt) s3 _ Hm) as C4.
      pose proof (count_update "base" h (Bs4.append meta_tag) _ _ Hat4) as C5.
      cbn [Bs4.insert0] in C5. rewrite count_in_append in C5.
      rewrite count_in_insert0 in C4.
      rewrite (find_none_count _ _ Hb3) in C4.
      change (Bs4.count_in "base" bt) with 1 in C4.
      change (Bs4.count_in "base" meta_tag) with 0 in C5.
      cbn [Bs4.insert0] in C4. lia.
    + apply (find_update _ _ _ _ _ Hh4 Hat4). reflexivity.
    + exists a, ch. exact Hat5.
  - intros p Hb Hh Hp.
    assert (Hb1 : Bs4.find (by_name "base") s1 = None)
      by (rewrite (find_skeleton "base" s1 soup H1); exact Hb).
    assert (Hb3 : Bs4.find (by_name "base") s3 = None)
      by (rewrite (find_skeleton "base" s3 soup Sk); exact Hb).
    assert (Hh3 : Bs4.find (by_name "head") s3 = None)
      by (rewrite (find_skeleton "head" s3 soup Sk); exact Hh).
    assert (Hp3 : Bs4.find (by_name "html") s3 = Some p)
      by (rewrite (find_skeleton "html" s3 soup Sk); exact Hp).
    specialize (Hnobase Hb1). injection Hnobase as _ ->.
    unfold insert_base. rewrite Hb3, Hh3, Hp3.
    destruct (find_spec _ _ _ Hp3) as (m & Hm & Hmat).
    apply matches_by_name_inv in Hmat as (a & ch & ->).
    set (hd := Bs4.append (Tag "base" [("target", AStr "_self")] [])
                 (Bs4.new_tag "head")).
    pose proof (soup_at_update p (Bs4.insert0 hd) s3 _ Hm) as Hat4.
    split; [|split].
    + pose proof (count_update "base" p (Bs4.insert0 hd) s3 _ Hm) as C4.
      rewrite count_in_insert0 in C4.
      rewrite (find_none_count _ _ Hb3) in C4.
      change (Bs4.count_in "base" hd) with 1 in C4. lia.
    + apply (find_update _ _ _ _ _ Hp3 Hm). reflexivity.
    + exists a, ch. exact Hat4.
Qed.

End BaseTag.

(** Witness of C5: the page of day 1, with its head and its relative link. *)
Lemma rewrite_soup_base_page :
  rewrite_soup Sample.accept_host Sample.page "https://adventofcode.com/2023/day/1"
  = Ok [Tag "html" []
          [Tag "head" []
             [Tag "base" [("target", AStr "_self")] [];
              Tag "title" [] [NavigableString "Day 1"];
              meta_tag];
           Tag "body" []
             [Tag "a"
                [("href",
                  AStr "/cachingproxy/proxy?url=https%3A//adventofcode.com/2023/day/day/2")]
                [NavigableString "next"]]]]
  /\ Bs4.count "base"
       [Tag "html" []
          [Tag "head" []
             [Tag "base" [("target", AStr "_self")] [];
              Tag "title" [] [NavigableString "Day 1"];
              meta_tag];
           Tag "body" []
             [Tag "a"
                [("href",
                  AStr "/cachingproxy/proxy?url=https%3A//adventofcode.com/2023/day/day/2")]
                [NavigableString "next"]]]] = 1.
Proof.
  assert (H : rewrite_soup Sample.accept_host Sample.page
                "https://adventofcode.com/2023/day/1"
              = Ok [Tag "html" []
                      [Tag "head" []
                         [Tag "base" [("target", AStr "_self")] [];
                          Tag "title" [] [NavigableString "Day 1"];
                          meta_tag];
                       Tag "body" []
                         [Tag "a"
                            [("href",
                              AStr "/cachingproxy/proxy?url=https%3A//adventofcode.com/2023/day/day/2")]
                            [NavigableString "next"]]]])
    by (vm_compute; reflexivity).
  split; [exact H|].
  destruct (rewrite_soup_base Sample.accept_host _ _ _ H) as (_ & Hhead & _).
  destruct (Hhead [0; 0] eq_refl eq_refl) as (Hcount & _). exact Hcount.
Defined.

(** C5 as stated fails. A fragment, with neither [html] nor [head], comes
    out as it went in, with no [base] and no [meta] tag. A page without
    head gets a head with the [base] tag and no [meta] tag. A page with a
    [base] tag gets no [meta] tag. Of two [base] tags with a target both
    are kept, so that two carry one. And a link that [urljoin] refuses
    ends the rewriting with its exception. *)
Lemma rewrite_soup_base_or_meta_missing :
  rewrite_soup Sample.accept_host Sample.fragment "https://example.com/"
  = Ok Sample.fragment
  /\ Bs4.count "base" Sample.fragment = 0
  /\ Bs4.count "meta" Sample.fragment = 0
  /\ rewrite_soup Sample.accept_host Sample.page_without_head "https://example.com/"
     = Ok [Tag "html" []
             [Tag "head" [] [Tag "base" [("target", AStr "_self")] []];
              Tag "body" [] [NavigableString "hello"]]]
  /\ rewrite_soup Sample.accept_host Sample.page_with_base "https://example.com/"
     = Ok [Tag "html" []
             [Tag "head" []
                [Tag "base"
                   [("href", AStr "https://example.com/"); ("target", AStr "_self")]
                   []];
              Tag "body" [] []]]
  /\ rewrite_soup Sample.accept_host Sample.page_with_two_bases "https://example.com/"
     = Ok [Tag "html" []
             [Tag "head" []
                [Tag "base" [("target", AStr "_self")] [];
                 Tag "base" [("target", AStr "_top")] []]]]
  /\ (forall check,
        rewrite_soup check Sample.fragment_with_bad_link "https://example.com/"
        = Raise (ValueError "Invalid IPv6 URL")).
Proof. repeat split. Qed.

(** An image in a page: the loops go through the whole document. *)
Example rewrite_soup_image :
  rewrite_soup Sample.accept_host Sample.page_with_image "https://example.com/"
  = Ok [Tag "html" []
          [Tag "head" [] [Tag "base" [("target", AStr "_self")] []; meta_tag];
           Tag "body" []
             [Tag "img"
                [("src", AStr "/cachingproxy/proxy?url=https%3A//example.com/a.png");
                 ("srcset",
                  AStr ("/cachingproxy/proxy?url=https%3A//example.com/a.png 1x, "
                        ++ "/cachingproxy/proxy?url=https%3A//example.com/b.png 2x"))]
                []]]].
Proof. reflexivity. Qed.

(** * Further properties *)

(** ** The file name of a URL *)

(** The character [encode_url] writes for [c]. *)
Lemma encode_char_cases (c : ascii) :
  (if Ascii.eqb (if Ascii.eqb c "/" then "$"%char else c) ":"
   then "#"%char else if Ascii.eqb c "/" then "$"%char else c)
  = if Ascii.eqb c "/" then "$"%char
    else if Ascii.eqb c ":" then "#"%char else c.
Proof.
  destruct (Ascii.eqb_spec c "/") as [->|Hc]; [reflexivity|].
  destruct (Ascii.eqb c ":"); reflexivity.
Qed.

Lemma encode_char_eq_iff (c d : ascii) :
  (if Ascii.eqb c "/" then "$"%char
   else if Ascii.eqb c ":" then "#"%char else c)
  = (if Ascii.eqb d "/" then "$"%char
     else if Ascii.eqb d ":" then "#"%char else d)
  <-> same_mark c d.
Proof.
  unfold same_mark.
  destruct (Ascii.eqb_spec c "/") as [->|Hc1], (Ascii.eqb_spec d "/") as [->|Hd1];
    try (destruct (Ascii.eqb_spec c ":") as [->|Hc2]);
    try (destruct (Ascii.eqb_spec d ":") as [->|Hd2]);
    (split;
     [ intros H; try discriminate H; subst; auto 10
     | intros H; decompose [or and] H; subst;
       first [reflexivity | discriminate | congruence] ]).
Qed.

(** X1: the name [encode_url] gives has the length of the URL and holds
    neither a slash nor a colon. *)
Theorem encode_url_safe_name (url : string) :
  String.length (encode_url url) = String.length url
  /\ Py.has_char "/" (encode_url url) = false
  /\ Py.has_char ":" (encode_url url) = false.
Proof.
  induction url as [|c s (IHl & IHs & IHc)]; [repeat split|].
  rewrite encode_url_cons, encode_char_cases. simpl.
  rewrite IHl, IHs, IHc, !orb_false_r. split; [reflexivity|].
  destruct (Ascii.eqb_spec c "/") as [->|Hc]; [split; reflexivity|].
  destruct (Ascii.eqb_spec c ":") as [->|Hd]; [split; reflexivity|].
  split; apply Ascii.eqb_neq; assumption.
Qed.

(** X2: two URLs have one encoded name exactly when they have one length
    and at every position the same character, or [/] in one and [$] in the
    other, or [:] in one and [#] in the other. *)
Theorem encode_url_collision_iff (u1 u2 : string) :
  encode_url u1 = encode_url u2
  <-> Forall2 same_mark (list_ascii_of_string u1) (list_ascii_of_string u2).
Proof.
  revert u2. induction u1 as [|c s IH]; intros [|d t]; simpl.
  - split; [constructor|reflexivity].
  - split; [discriminate|]. intros H. inversion H.
  - split; [discriminate|]. intros H. inversion H.
  - rewrite !encode_url_cons, !encode_char_cases. split.
    + intros H. injection H as Hc Hs. constructor.
      * apply encode_char_eq_iff. exact Hc.
      * apply IH. exact Hs.
    + intros H. inversion H as [|? ? ? ? Hc Hs]; subst.
      apply encode_char_eq_iff in Hc. apply IH in Hs. congruence.
Qed.

(** ** The links that go through the proxy *)

Lemma all_ascii_complete (c : ascii) : In c all_ascii.
Proof.
  unfold all_ascii. rewrite <- (ascii_nat_embedding c).
  apply in_map. apply in_seq. pose proof (nat_ascii_bounded c). lia.
Qed.

Lemma forall_ascii (P : ascii -> bool) :
  forallb P all_ascii = true -> forall c, P c = true.
Proof.
  intros H c. rewrite forallb_forall in H. apply H. apply all_ascii_complete.
Qed.

Lemma has_char_In (c : ascii) (s : string) :
  Py.has_char c s = true <-> In c (list_ascii_of_string s).
Proof.
  induction s as [|d s IH]; simpl.
  - split; [discriminate|tauto].
  - rewrite orb_true_iff, IH, Ascii.eqb_eq. tauto.
Qed.

Lemma quote_cons (c : ascii) (s : string) :
  Urllib.quote (String c s) = quote_char c ++ Urllib.quote s.
Proof. apply (quote_app (String c EmptyString) s). Qed.

Lemma quote_char_nonempty (c : ascii) : Py.is_empty (quote_char c) = false.
Proof.
  apply negb_true_iff.
  apply (forall_ascii (fun c => negb (Py.is_empty (quote_char c)))).
  vm_compute. reflexivity.
Qed.

(** No character is quoted as the beginning of what another is quoted as. *)
Lemma quote_char_prefix_free (c d : ascii) :
  Py.startswith (quote_char d) (quote_char c) = true -> c = d.
Proof.
  intros H. apply Ascii.eqb_eq.
  assert (E : forallb
                (fun c => forallb
                   (fun d => implb (Py.startswith (quote_char d) (quote_char c))
                               (Ascii.eqb c d))
                   all_ascii)
                all_ascii = true) by (vm_compute; reflexivity).
  pose proof (forall_ascii _ E c) as Ec. cbv beta in Ec.
  pose proof (forall_ascii _ Ec d) as Ed. cbv beta in Ed.
  rewrite H in Ed. exact Ed.
Qed.

Lemma app_prefix_cases (a b x y : string) :
  a ++ x = b ++ y -> Py.startswith b a = true \/ Py.startswith a b = true.
Proof.
  revert b. induction a as [|c a IH]; intros b H.
  - left. destruct b; reflexivity.
  - destruct b as [|d b]; [right; reflexivity|].
    rewrite !str_app_cons in H. injection H as -> H.
    simpl. rewrite Ascii.eqb_refl. simpl. apply IH. exact H.
Qed.

(** [quote] tells any two strings apart. *)
Lemma quote_inj (s t : string) : Urllib.quote s = Urllib.quote t -> s = t.
Proof.
  revert t. induction s as [|c s IH]; intros [|d t]; try reflexivity.
  - rewrite quote_cons. intros H. pose proof (quote_char_nonempty d) as Hd.
    destruct (quote_char d); [discriminate|]. discriminate.
  - rewrite quote_cons. intros H. pose proof (quote_char_nonempty c) as Hc.
    destruct (quote_char c); [discriminate|]. discriminate.
  - rewrite !quote_cons. intros H.
    assert (c = d) as ->.
    { destruct (app_prefix_cases _ _ _ _ H) as [Hp|Hp].
      - apply quote_char_prefix_free. exact Hp.
      - symmetry. apply quote_char_prefix_free. exact Hp. }
    apply str_app_inv_head in H. f_equal. apply IH. exact H.
Qed.

(** The characters [quote] writes: those it holds safe, and the percent
    sign. *)
Lemma quote_charset (s : string) (c : ascii) :
  Py.has_char c (Urllib.quote s) = true ->
  Urllib.safe_byte c = true \/ c = "%"%char.
Proof.
  induction s as [|d s IH]; [discriminate|].
  rewrite quote_cons, has_char_app. intros H.
  apply orb_true_iff in H as [H|H]; [|exact (IH H)].
  assert (E : forallb
                (fun d => forallb
                   (fun x => Urllib.safe_byte x || Ascii.eqb x "%")
                   (list_ascii_of_string (quote_char d)))
                all_ascii = true) by (vm_compute; reflexivity).
  pose proof (forall_ascii _ E d) as Ed. cbv beta in Ed.
  rewrite forallb_forall in Ed. apply has_char_In in H.
  specialize (Ed c H). apply orb_true_iff in Ed as [Ed|Ed]; [left; exact Ed|].
  right. apply Ascii.eqb_eq. exact Ed.
Qed.

(** A URL with its scheme is not empty and not among those left alone. *)
Lemma absolute_not_skipped (v : string) :
  Py.startswith_any v ["http://"; "https://"] = true ->
  Py.is_empty v = false
  /\ Py.startswith_any v ["javascript:"; "data:"; "#"; "mailto:"] = false.
Proof.
  intros H. apply startswith_any_spec in H as (p & r & Hin & ->).
  destruct Hin as [<-|[<-|[]]]; split; reflexivity.
Qed.

Section ProxyLinks.

Variable check : string -> res unit.

(** X3: a URL that starts with [http://] or [https://] is rewritten without
    regard to the base and without exception: the answer is the prefix,
    [/proxy?url=] and the URL quoted. *)
Theorem rewrite_url_absolute (v base_url : string) :
  Py.startswith_any v ["http://"; "https://"] = true ->
  rewrite_url check v base_url = Ok (PREFIX ++ "/proxy?url=" ++ Urllib.quote v).
Proof.
  intros H. destruct (absolute_not_skipped v H) as [He Hs].
  unfold rewrite_url. rewrite He, Hs, H. reflexivity.
Qed.

(** X4: two URLs with their schemes that are rewritten to one link are one
    URL, whatever the bases. *)
Theorem rewrite_url_absolute_inj (v1 v2 base1 base2 : string) :
  Py.startswith_any v1 ["http://"; "https://"] = true ->
  Py.startswith_any v2 ["http://"; "https://"] = true ->
  rewrite_url check v1 base1 = rewrite_url check v2 base2 ->
  v1 = v2.
Proof.
  intros H1 H2. destruct (absolute_not_skipped v1 H1) as [He1 Hs1].
  destruct (absolute_not_skipped v2 H2) as [He2 Hs2].
  unfold rewrite_url. rewrite He1, Hs1, H1, He2, Hs2, H2. simpl negb. cbv iota.
  intros H. injection H as H. apply quote_inj. exact H.
Qed.

(** X5: what [rewrite_url] returns is the value itself, or the prefix and
    [/proxy?url=] followed by characters that [quote] holds safe and
    percent signs: no [?], [&], [#], [=], space or quotation mark ends the
    parameter early. *)
Theorem rewrite_url_shape (v base_url r : string) :
  rewrite_url check v base_url = Ok r ->
  r = v
  \/ exists q,
       r = PREFIX ++ "/proxy?url=" ++ q
       /\ forall c, Py.has_char c q = true ->
                    Urllib.safe_byte c = true \/ c = "%"%char.
Proof.
  unfold rewrite_url.
  destruct (Py.is_empty v); [intros H; injection H as <-; auto|].
  destruct (Py.startswith_any v ["javascript:"; "data:"; "#"; "mailto:"]);
    [intros H; injection H as <-; auto|].
  destruct (negb (Py.startswith_any v ["http://"; "https://"])).
  - destruct (Urllib.urljoin check base_url v) as [a|e]; cbn [mbind res_bind];
      [|discriminate].
    intros H. injection H as <-. right. exists (Urllib.quote a).
    split; [reflexivity|apply quote_charset].
  - intros H. injection H as <-. right. exists (Urllib.quote v).
    split; [reflexivity|apply quote_charset].
Qed.

End ProxyLinks.

(** Witnesses of X3, X4 and X5. *)
Lemma rewrite_url_absolute_sample :
  rewrite_url Sample.accept_host "https://adventofcode.com/2023?x=1&y=2"
    "https://example.com/"
  = Ok "/cachingproxy/proxy?url=https%3A//adventofcode.com/2023%3Fx%3D1%26y%3D2".
Proof.
  rewrite (rewrite_url_absolute Sample.accept_host
             "https://adventofcode.com/2023?x=1&y=2" "https://example.com/");
    reflexivity.
Defined.

Lemma rewrite_url_absolute_inj_sample :
  rewrite_url Sample.accept_host "http://example.com/a" "https://example.com/"
  <> rewrite_url Sample.accept_host "http://example.com/b" "https://example.com/".
Proof.
  intros H.
  pose proof (rewrite_url_absolute_inj Sample.accept_host
                "http://example.com/a" "http://example.com/b"
                "https://example.com/" "https://example.com/"
                eq_refl eq_refl H) as E.
  discriminate E.
Defined.

Lemma rewrite_url_shape_sample :
  Py.has_char "&"
    "https%3A//adventofcode.com/2023%3Fx%3D1%26y%3D2" = false.
Proof.
  destruct (rewrite_url_shape Sample.accept_host
              "https://adventofcode.com/2023?x=1&y=2" "https://example.com/"
              "/cachingproxy/proxy?url=https%3A//adventofcode.com/2023%3Fx%3D1%26y%3D2"
              eq_refl) as [H|(q & Hq & Hc)].
  - discriminate H.
  - apply (str_app_inv_head (PREFIX ++ "/proxy?url=")) in Hq.
    subst q. destruct (Py.has_char "&" _) eqn:E; [|reflexivity].
    destruct (Hc "&"%char E); discriminate.
Defined.

(** ** Links that are rewritten without exception *)







Section NoException.

Variable check : string -> res unit.





End NoException.


Example rewrite_url_bracket_raises :
  forall check,
    rewrite_url check "//[x" "https://example.com/"
    = Raise (ValueError "Invalid IPv6 URL").
Proof. reflexivity. Qed.

(** ** The route, request by request *)

Section Route.

Variable CACHE_DIR : string.
Variable guess_extension : string -> option string.
Variable check_bracketed_host : string -> res unit.
Variable decode_utf8_replace : string -> string.
Variable parse_html : string -> res soup_t.
Variable str_soup : soup_t -> string.


(** X7: a URL that, with its scheme put before it, begins with no entry of
    the allow-list is answered by the error page with [Forbidden URL!]; the
    network and the store have no part in the answer, and the store stays
    as it is. *)
Theorem forbidden_url_page (net : string -> res http_response)
    (fs : gmap string file) (now : Z) (url_arg : string) :
  url_arg <> EmptyString ->
  (forall p r, In p ALLOW_URLS -> with_scheme url_arg <> p ++ r) ->
  proxy_full_async CACHE_DIR guess_extension check_bracketed_host
    decode_utf8_replace parse_html str_soup net fs now (Some url_arg)
  = (ErrorPage (with_scheme url_arg) "Forbidden URL!", fs).
Proof.
  intros Hne Hno. unfold proxy_full_async.
  destruct (Py.is_empty url_arg) eqn:He;
    [apply is_empty_spec in He; contradiction|].
  fold (with_scheme url_arg). unfold proxy_try.
  assert (Ha : is_allowed (with_scheme url_arg) ALLOW_URLS = false).
  { destruct (is_allowed (with_scheme url_arg) ALLOW_URLS) eqn:E; [|reflexivity].
    exfalso. change (is_allowed (with_scheme url_arg) ALLOW_URLS)
      with (allow_loop (with_scheme url_arg) ALLOW_URLS false) in E.
    apply allow_loop_false in E as (p & r & Hin & Hp). exact (Hno p r Hin Hp). }
  rewrite Ha. reflexivity.
Qed.

Lemma request_store_cases (net : string -> res http_response)
    (fs : gmap string file) (now : Z) (url_arg : option string) :
  snd (proxy_full_async CACHE_DIR guess_extension check_bracketed_host
         decode_utf8_replace parse_html str_soup net fs now url_arg) = fs
  \/ exists url ct p content,
       url_arg = Some url
       /\ get_cache_path CACHE_DIR guess_extension check_bracketed_host
            (with_scheme url) (Some ct) = Ok p
       /\ snd (proxy_full_async CACHE_DIR guess_extension check_bracketed_host
                 decode_utf8_replace parse_html str_soup net fs now url_arg)
          = <[p := mkFile content now]> fs.
Proof.
  destruct url_arg as [u|]; [|left; reflexivity].
  unfold proxy_full_async. destruct (Py.is_empty u); [left; reflexivity|].
  fold (with_scheme u). set (url := with_scheme u). unfold proxy_try.
  destruct (negb (is_allowed url ALLOW_URLS)); [left; reflexivity|].
  destruct (is_cached _ _ _ fs now url DEFAULT_CACHE_EXPIRY) as [c|e];
    [|left; reflexivity].
  set (hit := if c then _ else None).
  destruct hit as [[r|e]|]; [left; reflexivity|left; reflexivity|].
  destruct (net url) as [resp|e]; [|left; reflexivity].
  destruct (negb (status resp =? 200)%Z); [left; reflexivity|].
  set (ct := Py.lower (default "" (content_type_header resp))).
  destruct (get_cache_path _ _ _ url (Some ct)) as [p|e] eqn:Hp;
    [|left; reflexivity].
  destruct (negb (Py.contains ct "text/html")).
  - destruct (read resp) as [content|e]; [|left; reflexivity].
    right. exists u, ct, p, content. auto.
  - destruct (text resp) as [html|e]; [|left; reflexivity].
    destruct (rewrite_html _ _ _ (Some html) url) as [processed|e];
      [|left; reflexivity].
    right. exists u, ct, p, (encode_utf8 processed). auto.
Qed.

(** X8: whatever the request, the network and the store, the store after
    the request is the store before it, or the store before it with one
    file written: at the cache path of the URL for some content type, and
    with the time of the request. No file of the store is deleted. *)
Theorem request_writes_one_file (net : string -> res http_response)
    (fs : gmap string file) (now : Z) (url_arg : option string) :
  (snd (proxy_full_async CACHE_DIR guess_extension check_bracketed_host
          decode_utf8_replace parse_html str_soup net fs now url_arg) = fs
   \/ exists url ct p content,
        url_arg = Some url
        /\ get_cache_path CACHE_DIR guess_extension check_bracketed_host
             (with_scheme url) (Some ct) = Ok p
        /\ snd (proxy_full_async CACHE_DIR guess_extension check_bracketed_host
                  decode_utf8_replace parse_html str_soup net fs now url_arg)
           = <[p := mkFile content now]> fs)
  /\ (forall q,
        is_Some (fs !! q) ->
        is_Some (snd (proxy_full_async CACHE_DIR guess_extension
                        check_bracketed_host decode_utf8_replace parse_html
                        str_soup net fs now url_arg) !! q)).
Proof.
  pose proof (request_store_cases net fs now url_arg) as H.
  split; [exact H|].
  intros q Hq. destruct H as [->|(u & ct & p & content & _ & _ & ->)];
    [exact Hq|].
  destruct (decide (p = q)) as [->|Hpq].
  - rewrite lookup_insert_eq. eauto.
  - rewrite lookup_insert_ne by exact Hpq. exact Hq.
Qed.







End Route.


(** Witness of X7: a URL without scheme is taken with [https://], and
    [https://example.com] is not on the list. *)
Lemma forbidden_url_page_sample :
  proxy_full_async Sample.cache_dir Sample.guess_extension Sample.accept_host
    Sample.decode Sample.no_parser Sample.no_serializer
    Origin.html Sample.store 2000 (Some "example.com/x")
  = (ErrorPage "https://example.com/x" "Forbidden URL!", Sample.store).
Proof.
  apply (forbidden_url_page Sample.cache_dir Sample.guess_extension
           Sample.accept_host Sample.decode Sample.no_parser
           Sample.no_serializer Origin.html Sample.store 2000 "example.com/x").
  - discriminate.
  - intros p r [<-|[<-|[]]]; discriminate.
Defined.



(** ** What the five loops leave as it is *)

Lemma blank_set (keys : list string) (key : string) (v : attr_value)
    (attrs : attrs_t) :
  PyStr.mem key keys = true -> is_Some (Bs4.get key attrs) ->
  blank keys (Bs4.set key v attrs) = blank keys attrs.
Proof.
  intros Hk. induction attrs as [|[k w] attrs IH]; simpl.
  - intros [x Hx]. discriminate.
  - destruct (String.eqb_spec k key) as [->|Hne]; simpl.
    + intros _. rewrite Hk. reflexivity.
    + intros Hs. rewrite (IH Hs). reflexivity.
Qed.

Lemma rewrite_attr_blank (check : string -> res unit) (keys : list string)
    (key : string) (attrs attrs' : attrs_t) (base_url : string) :
  PyStr.mem key keys = true ->
  rewrite_attr check key attrs base_url = Ok attrs' ->
  blank keys attrs' = blank keys attrs.
Proof.
  intros Hk. unfold rewrite_attr.
  destruct (Bs4.get key attrs) as [v|] eqn:Hg; [|discriminate].
  destruct (rewrite_value check v base_url) as [r|e]; cbn [mbind res_bind];
    [|discriminate].
  intros H. injection H as <-. apply blank_set; [exact Hk|]. rewrite Hg. eauto.
Qed.

(** A loop whose body keeps what [blank] shows keeps it in the whole
    document. *)
Lemma map_tags_blank (f : string -> attrs_t -> res attrs_t) :
  (forall name attrs attrs',
     f name attrs = Ok attrs' ->
     blank (link_keys name) attrs' = blank (link_keys name) attrs) ->
  forall n n', Bs4.map_tags f n = Ok n' -> blank_links n' = blank_links n.
Proof.
  intros Hf n.
  induction n as [nm a ch IH|s] using node_ind_nested; intros n';
    cbn [Bs4.map_tags].
  - destruct (f nm a) as [a'|e] eqn:Ha; cbn [mbind res_bind]; [|discriminate].
    destruct (Bs4.mapM (Bs4.map_tags f) ch) as [ch'|e] eqn:Hch;
      cbn [mbind res_bind]; [|discriminate].
    intros H. injection H as <-. cbn [blank_links].
    rewrite (Hf _ _ _ Ha). f_equal. apply mapM_Forall2 in Hch.
    induction Hch as [|x y l l' Hxy _ IHl]; [reflexivity|].
    inversion IH as [|? ? Hx Hl]; subst. simpl. f_equal; [|apply IHl; exact Hl].
    apply Hx. exact Hxy.
  - intros H. injection H as <-. reflexivity.
Qed.

Lemma mapM_map_tags_blank (f : string -> attrs_t -> res attrs_t)
    (soup soup' : soup_t) :
  (forall name attrs attrs',
     f name attrs = Ok attrs' ->
     blank (link_keys name) attrs' = blank (link_keys name) attrs) ->
  Bs4.mapM (Bs4.map_tags f) soup = Ok soup' ->
  List.map blank_links soup' = List.map blank_links soup.
Proof.
  intros Hf H. apply mapM_Forall2 in H.
  induction H as [|x y l l' Hxy _ IH]; [reflexivity|].
  simpl. f_equal; [exact (map_tags_blank f Hf _ _ Hxy)|exact IH].
Qed.

Section Loops.

Variable check : string -> res unit.

Lemma rewrite_a_blank (base_url name : string) (attrs attrs' : attrs_t) :
  rewrite_a check base_url name attrs = Ok attrs' ->
  blank (link_keys name) attrs' = blank (link_keys name) attrs.
Proof.
  unfold rewrite_a. destruct (String.eqb_spec name "a") as [->|_]; simpl andb.
  - destruct (bool_decide _); [|intros H; injection H as <-; reflexivity].
    apply rewrite_attr_blank. reflexivity.
  - intros H. injection H as <-. reflexivity.
Qed.

Lemma rewrite_img_blank (base_url name : string) (attrs attrs' : attrs_t) :
  rewrite_img check base_url name attrs = Ok attrs' ->
  blank (link_keys name) attrs' = blank (link_keys name) attrs.
Proof.
  unfold rewrite_img. destruct (String.eqb_spec name "img") as [->|_]; simpl andb.
  - destruct (bool_decide _); [|intros H; injection H as <-; reflexivity].
    destruct (rewrite_attr check "src" attrs base_url) as [a1|e] eqn:H1;
      cbn [mbind res_bind]; [|discriminate].
    apply (rewrite_attr_blank check (link_keys "img")) in H1; [|reflexivity].
    destruct (Bs4.truthy (Bs4.get "srcset" a1));
      [|intros H; injection H as <-; exact H1].
    destruct (Bs4.get "srcset" a1) as [[value|l]|] eqn:Hg; try discriminate.
    destruct (rewrite_srcset check value base_url) as [r|e];
      cbn [mbind res_bind]; [|discriminate].
    intros H. injection H as <-. rewrite <- H1.
    apply blank_set; [reflexivity|]. rewrite Hg. eauto.
  - intros H. injection H as <-. reflexivity.
Qed.

Lemma rewrite_link_blank (base_url name : string) (attrs attrs' : attrs_t) :
  rewrite_link check base_url name attrs = Ok attrs' ->
  blank (link_keys name) attrs' = blank (link_keys name) attrs.
Proof.
  unfold rewrite_link. destruct (String.eqb_spec name "link") as [->|_]; simpl andb.
  - destruct (bool_decide _); [|intros H; injection H as <-; reflexivity].
    destruct (Bs4.truthy _ && _); [|intros H; injection H as <-; reflexivity].
    apply rewrite_attr_blank. reflexivity.
  - intros H. injection H as <-. reflexivity.
Qed.

Lemma rewrite_script_blank (base_url name : string) (attrs attrs' : attrs_t) :
  rewrite_script check base_url name attrs = Ok attrs' ->
  blank (link_keys name) attrs' = blank (link_keys name) attrs.
Proof.
  unfold rewrite_script.
  destruct (String.eqb_spec name "script") as [->|_]; simpl andb.
  - destruct (bool_decide _); [|intros H; injection H as <-; reflexivity].
    apply rewrite_attr_blank. reflexivity.
  - intros H. injection H as <-. reflexivity.
Qed.

Lemma rewrite_form_blank (base_url name : string) (attrs attrs' : attrs_t) :
  rewrite_form check base_url name attrs = Ok attrs' ->
  blank (link_keys name) attrs' = blank (link_keys name) attrs.
Proof.
  unfold rewrite_form.
  destruct (String.eqb_spec name "form") as [->|_]; simpl andb.
  - destruct (bool_decide _); [|intros H; injection H as <-; reflexivity].
    apply rewrite_attr_blank. reflexivity.
  - intros H. injection H as <-. reflexivity.
Qed.

Lemma rewrite_links_blank (soup soup' : soup_t) (base_url : string) :
  rewrite_links check soup base_url = Ok soup' ->
  List.map blank_links soup' = List.map blank_links soup.
Proof.
  unfold rewrite_links.
  destruct (Bs4.mapM (Bs4.map_tags (rewrite_a _ base_url)) soup) as [s1|] eqn:H1;
    cbn [mbind res_bind]; [|discriminate].
  destruct (Bs4.mapM (Bs4.map_tags (rewrite_img _ base_url)) s1) as [s2|] eqn:H2;
    cbn [mbind res_bind]; [|discriminate].
  destruct (Bs4.mapM (Bs4.map_tags (rewrite_link _ base_url)) s2) as [s3|] eqn:H3;
    cbn [mbind res_bind]; [|discriminate].
  destruct (Bs4.mapM (Bs4.map_tags (rewrite_script _ base_url)) s3) as [s4|] eqn:H4;
    cbn [mbind res_bind]; [|discriminate].
  intros H5.
  apply mapM_map_tags_blank in H1; [|apply rewrite_a_blank].
  apply mapM_map_tags_blank in H2; [|apply rewrite_img_blank].
  apply mapM_map_tags_blank in H3; [|apply rewrite_link_blank].
  apply mapM_map_tags_blank in H4; [|apply rewrite_script_blank].
  apply mapM_map_tags_blank in H5; [|apply rewrite_form_blank].
  congruence.
Qed.

(** X12: the five loops write to the [href] of [a] and [link] tags, the
    [src] and [srcset] of [img] tags, the [src] of [script] tags and the
    [action] of [form] tags, and to nothing else: the tags, their nesting,
    the strings, the keys of the attributes in their order and every other
    value come out as they went in. *)
Theorem rewrite_links_only_links (soup soup' : soup_t) (base_url : string) :
  rewrite_links check soup base_url = Ok soup' ->
  List.map blank_links soup' = List.map blank_links soup.
Proof. apply rewrite_links_blank. Qed.

End Loops.

(** Witness of X12: a [video] tag keeps its [src], an [a] tag its [class]
    and its [src], a [link] tag that is no stylesheet its [href]. *)
Lemma rewrite_links_only_links_sample :
  rewrite_links Sample.accept_host Sample.fragment_with_video
    "https://example.com/2023/"
  = Ok [Tag "video" [("src", AStr "v.mp4")] [];
        Tag "a"
          [("class", AList ["nav"]);
           ("href", AStr "/cachingproxy/proxy?url=https%3A//example.com/2023/day/2");
           ("src", AStr "x")]
          [NavigableString "next"];
        Tag "link" [("rel", AList ["icon"]); ("href", AStr "favicon.ico")] []]
  /\ List.map blank_links
       [Tag "video" [("src", AStr "v.mp4")] [];
        Tag "a"
          [("class", AList ["nav"]);
           ("href", AStr "/cachingproxy/proxy?url=https%3A//example.com/2023/day/2");
           ("src", AStr "x")]
          [NavigableString "next"];
        Tag "link" [("rel", AList ["icon"]); ("href", AStr "favicon.ico")] []]
     = List.map blank_links Sample.fragment_with_video.
Proof.
  assert (H : rewrite_links Sample.accept_host Sample.fragment_with_video
                "https://example.com/2023/"
              = Ok [Tag "video" [("src", AStr "v.mp4")] [];
                    Tag "a"
                      [("class", AList ["nav"]);
                       ("href",
                        AStr "/cachingproxy/proxy?url=https%3A//example.com/2023/day/2");
                       ("src", AStr "x")]
                      [NavigableString "next"];
                    Tag "link" [("rel", AList ["icon"]);
                                ("href", AStr "favicon.ico")] []])
    by (vm_compute; reflexivity).
  split; [exact H|].
  exact (rewrite_links_only_links Sample.accept_host _ _ _ H).
Defined.

(** ** The tags that the rewriting adds *)

Lemma count_in_leaf (name nm : string) (a : attrs_t) :
  Bs4.count_in name (Tag nm a []) = if String.eqb name nm then 1 else 0.
Proof.
  cbn [Bs4.count_in]. rewrite (String.eqb_sym nm name).
  destruct (String.eqb name nm); reflexivity.
Qed.

Section TagCounts.

Variable check : string -> res unit.

(** X13: the rewriting of a document removes no tag, and adds these: a
    [base] and a [meta] tag when the document has no [base] tag and has a
    [head]; a [head] and a [base] tag when it has neither and has an
    [html] tag; none otherwise. For every name, the number of tags of that
    name in the result is their number in the document plus the number of
    tags of that name added. *)
Theorem rewrite_soup_tag_counts (soup out : soup_t) (base_url name : string) :
  rewrite_soup check soup base_url = Ok out ->
  Bs4.count name out
  = Bs4.count name soup
    + List.length (List.filter (String.eqb name) (inserted_tags soup)).
Proof.
  unfold rewrite_soup.
  destruct (rewrite_links _ soup base_url) as [s1|] eqn:H1;
    cbn [mbind res_bind]; [|discriminate].
  apply rewrite_links_skeleton in H1.
  destruct (set_base_target_spec s1) as (Sk2 & _ & Hnobase).
  destruct (set_base_target s1) as [s2 bt]. cbn [fst] in Sk2.
  destruct (swap_stylesheets s2) as [s3|] eqn:H3;
    cbn [mbind res_bind]; [|discriminate].
  apply swap_stylesheets_spec in H3 as [Sk3 _].
  intros H. injection H as <-.
  assert (Sk : List.map Bs4.skeleton s3 = List.map Bs4.skeleton soup) by congruence.
  rewrite <- (count_skeleton name s3 soup Sk).
  unfold insert_base, inserted_tags.
  rewrite <- (find_skeleton "base" s3 soup Sk), <- (find_skeleton "head" s3 soup Sk),
    <- (find_skeleton "html" s3 soup Sk).
  destruct (Bs4.find (by_name "base") s3) as [b|] eqn:Hb; [simpl; lia|].
  assert (Hb1 : Bs4.find (by_name "base") s1 = None).
  { rewrite (find_skeleton "base" s1 soup H1).
    rewrite <- (find_skeleton "base" s3 soup Sk). exact Hb. }
  specialize (Hnobase Hb1). injection Hnobase as _ ->.
  destruct (Bs4.find (by_name "head") s3) as [h|] eqn:Hh.
  - destruct (find_spec _ _ _ Hh) as (m & Hm & Hmat).
    apply matches_by_name_inv in Hmat as (a & ch & ->).
    set (bt := Tag "base" [("target", AStr "_self")] []).
    assert (Hh4 : Bs4.find (by_name "head") (Bs4.update h (Bs4.insert0 bt) s3)
                  = Some h)
      by (apply (find_update _ _ _ _ _ Hh Hm); reflexivity).
    rewrite Hh4.
    pose proof (soup_at_update h (Bs4.insert0 bt) s3 _ Hm) as Hat4.
    pose proof (count_update name h (Bs4.insert0 bt) s3 _ Hm) as C4.
    pose proof (count_update name h (Bs4.append meta_tag) _ _ Hat4) as C5.
    cbn [Bs4.insert0] in C5. rewrite count_in_append in C5.
    rewrite count_in_insert0 in C4. cbn [Bs4.insert0] in C4.
    unfold bt in C4. rewrite count_in_leaf in C4.
    change meta_tag
      with (Tag "meta" [("name", AStr "viewport");
                        ("content", AStr "width=device-width, initial-scale=1.0")]
              []) in C5 at 2.
    rewrite count_in_leaf in C5.
    unfold bt in *. simpl (List.filter _ _).
    destruct (String.eqb name "base"); destruct (String.eqb name "meta");
      simpl (List.length _); lia.
  - destruct (Bs4.find (by_name "html") s3) as [p|] eqn:Hp; [|simpl; lia].
    destruct (find_spec _ _ _ Hp) as (m & Hm & Hmat).
    apply matches_by_name_inv in Hmat as (a & ch & ->).
    pose proof (count_update name p
                  (Bs4.insert0 (Bs4.append (Tag "base" [("target", AStr "_self")] [])
                                  (Bs4.new_tag "head")))
                  s3 _ Hm) as C4.
    rewrite count_in_insert0 in C4.
    change (Bs4.count_in name
              (Bs4.append (Tag "base" [("target", AStr "_self")] [])
                 (Bs4.new_tag "head")))
      with ((if String.eqb "head" name then 1 else 0)
            + (Bs4.count_in name (Tag "base" [("target", AStr "_self")] []) + 0))
      in C4.
    rewrite count_in_leaf in C4. rewrite (String.eqb_sym "head" name) in C4.
    simpl (List.filter _ _).
    destruct (String.eqb name "head"); destruct (String.eqb name "base");
      simpl (List.length _); lia.
Qed.

End TagCounts.

(** Witness of X13: the page of day 1 has no [meta] tag, and one when it
    is rewritten. *)
Lemma rewrite_soup_tag_counts_sample :
  exists out,
    rewrite_soup Sample.accept_host Sample.page "https://adventofcode.com/2023/day/1"
    = Ok out
    /\ Bs4.count "meta" out = 1.
Proof.
  destruct (rewrite_soup Sample.accept_host Sample.page
              "https://adventofcode.com/2023/day/1") as [out|e] eqn:H;
    [|vm_compute in H; discriminate H].
  exists out. split; [reflexivity|].
  rewrite (rewrite_soup_tag_counts Sample.accept_host _ _ _ "meta" H).
  reflexivity.
Defined.

(** ** The stylesheet and its alternate *)

Lemma rel_of_set_attr (v : attr_value) (nm : string) (a : attrs_t) (ch : list node) :
  rel_of (Bs4.set_attr "rel" v (Tag nm a ch)) = Some v.
Proof. apply get_set_eq. Qed.

Lemma rel_of_some_tag (m : node) (v : attr_value) :
  rel_of m = Some v -> exists nm a ch, m = Tag nm a ch.
Proof. destruct m as [nm a ch|s]; [eauto|discriminate]. Qed.

Lemma matches_link_rel (r : string) (m : node) :
  Bs4.matches (link_rel r) m = true ->
  exists a ch v, m = Tag "link" a ch /\ Bs4.get "rel" a = Some v.
Proof.
  destruct m as [nm a ch|s]; [|discriminate]. simpl.
  destruct (String.eqb_spec nm "link") as [->|]; [|discriminate].
  destruct (Bs4.get "rel" a) as [v|] eqn:Hg; [|discriminate].
  intros _. exists a, ch, v. auto.
Qed.

(** The attributes of a tag are not touched by an assignment to an
    attribute of another tag. *)
Lemma node_at_update_in_other (p q : Bs4.path_t) (k : string) (v : attr_value)
    (n m : node) :
  p <> q -> Bs4.node_at p n = Some m ->
  exists m', Bs4.node_at p (Bs4.update_in q (Bs4.set_attr k v) n) = Some m'
             /\ rel_of m' = rel_of m.
Proof.
  revert q n. induction p as [|i p IH]; intros [|j q] n Hne;
    cbn [Bs4.node_at Bs4.update_in]; try congruence.
  - intros H. injection H as <-. destruct n as [nm a ch|s]; eauto.
  - destruct n as [nm a ch|s]; [|discriminate].
    cbn [Bs4.set_attr Bs4.node_at]. destruct (ch !! i); [eauto|discriminate].
  - destruct n as [nm a ch|s]; [|discriminate]. cbn [Bs4.node_at].
    destruct (decide (i = j)) as [->|Hij].
    + rewrite list_lookup_alter_eq.
      destruct (ch !! j) as [x|]; [|discriminate]. simpl.
      apply IH. congruence.
    + rewrite list_lookup_alter_ne by congruence.
      destruct (ch !! i) as [x|]; [eauto|discriminate].
Qed.

Lemma soup_at_update_other (p q : Bs4.path_t) (k : string) (v : attr_value)
    (soup : soup_t) (m : node) :
  p <> q -> Bs4.soup_at p soup = Some m ->
  exists m', Bs4.soup_at p (Bs4.update q (Bs4.set_attr k v) soup) = Some m'
             /\ rel_of m' = rel_of m.
Proof.
  destruct p as [|i p]; [discriminate|]. destruct q as [|j q]; [eauto|].
  intros Hne. cbn [Bs4.soup_at Bs4.update].
  destruct (decide (i = j)) as [->|Hij].
  - rewrite list_lookup_alter_eq.
    destruct (soup !! j) as [x|]; [|discriminate]. simpl.
    apply node_at_update_in_other. congruence.
  - rewrite list_lookup_alter_ne by congruence.
    destruct (soup !! i) as [x|]; [eauto|discriminate].
Qed.

(** X14: the exchange of the stylesheets, when it comes to an end, changes
    no attribute but [rel]. Without a [link] tag that matches
    [stylesheet alternate] the document is as before. With one, a [link]
    tag matches [stylesheet]; the first alternate carries
    [rel="stylesheet"] afterwards, and the first tag that matched
    [stylesheet] carries [rel="ONZIN"] unless it is that same tag. *)
Theorem swap_stylesheets_result (soup soup' : soup_t) :
  swap_stylesheets soup = Ok soup' ->
  List.map (Bs4.map_attrs (Bs4.remove "rel")) soup'
  = List.map (Bs4.map_attrs (Bs4.remove "rel")) soup
  /\ (Bs4.find (link_rel "stylesheet alternate") soup = None -> soup' = soup)
  /\ (forall p2,
        Bs4.find (link_rel "stylesheet alternate") soup = Some p2 ->
        exists p1,
          Bs4.find (link_rel "stylesheet") soup = Some p1
          /\ (exists m, Bs4.soup_at p2 soup' = Some m
                        /\ rel_of m = Some (AStr "stylesheet"))
          /\ (p1 <> p2 ->
              exists m, Bs4.soup_at p1 soup' = Some m
                        /\ rel_of m = Some (AStr "ONZIN"))).
Proof.
  intros H. split; [exact (proj2 (swap_stylesheets_spec _ _ H))|].
  revert H. unfold swap_stylesheets.
  destruct (Bs4.find (link_rel "stylesheet alternate") soup) as [q2|] eqn:H2.
  - destruct (Bs4.find (link_rel "stylesheet") soup) as [q1|] eqn:H1;
      [|discriminate].
    intros H. injection H as <-. split; [discriminate|].
    intros p2 E. injection E as <-. exists q1. split; [reflexivity|].
    destruct (find_spec _ _ _ H1) as (m1 & Hm1 & Hmat1).
    destruct (find_spec _ _ _ H2) as (m2 & Hm2 & Hmat2).
    apply matches_link_rel in Hmat1 as (a1 & ch1 & v1 & -> & Hv1).
    apply matches_link_rel in Hmat2 as (a2 & ch2 & v2 & -> & Hv2).
    pose proof (soup_at_update q1 (Bs4.set_attr "rel" (AStr "ONZIN")) soup _ Hm1)
      as Hat1.
    split.
    + assert (Hx : exists nm a ch,
                Bs4.soup_at q2
                  (Bs4.update q1 (Bs4.set_attr "rel" (AStr "ONZIN")) soup)
                = Some (Tag nm a ch)).
      { destruct (decide (q2 = q1)) as [->|Hne].
        - rewrite Hat1. cbn [Bs4.set_attr]. eauto.
        - destruct (soup_at_update_other q2 q1 "rel" (AStr "ONZIN") soup _ Hne Hm2)
            as (m' & Hm' & Hrel).
          cbn [rel_of] in Hrel. rewrite Hv2 in Hrel.
          apply rel_of_some_tag in Hrel as (nm & a & ch & ->). eauto. }
      destruct Hx as (nm & a & ch & Hx).
      exists (Bs4.set_attr "rel" (AStr "stylesheet") (Tag nm a ch)).
      split; [|apply rel_of_set_attr].
      apply soup_at_update. exact Hx.
    + intros Hne.
      destruct (soup_at_update_other q1 q2 "rel" (AStr "stylesheet") _ _ Hne Hat1)
        as (m' & Hm' & Hrel).
      exists m'. split; [exact Hm'|]. rewrite Hrel. apply rel_of_set_attr.
  - intros H. injection H as <-. split; [reflexivity|discriminate].
Qed.

(** Witness of X14: the stylesheet is made invalid and its alternate the
    default. *)
Lemma swap_stylesheets_result_sample :
  swap_stylesheets Sample.head_with_stylesheets
  = Ok [Tag "head" []
          [Tag "link" [("rel", AStr "ONZIN"); ("href", AStr "light.css")] [];
           Tag "link" [("rel", AStr "stylesheet"); ("href", AStr "dark.css")] []]]
  /\ exists m,
       Bs4.soup_at [0; 1]
         [Tag "head" []
            [Tag "link" [("rel", AStr "ONZIN"); ("href", AStr "light.css")] [];
             Tag "link" [("rel", AStr "stylesheet"); ("href", AStr "dark.css")] []]]
       = Some m
       /\ rel_of m = Some (AStr "stylesheet").
Proof.
  assert (H : swap_stylesheets Sample.head_with_stylesheets
              = Ok [Tag "head" []
                      [Tag "link" [("rel", AStr "ONZIN");
                                   ("href", AStr "light.css")] [];
                       Tag "link" [("rel", AStr "stylesheet");
                                   ("href", AStr "dark.css")] []]])
    by reflexivity.
  split; [exact H|].
  destruct (swap_stylesheets_result _ _ H) as (_ & _ & Hswap).
  destruct (Hswap [0; 1] eq_refl) as (p1 & _ & Hm & _). exact Hm.
Defined.

(** An alternate that comes first in the document is also the first tag
    that matches [stylesheet]: it is made the default, and the stylesheet
    that was the default stays one. *)
Example swap_stylesheets_alternate_first :
  swap_stylesheets Sample.head_with_alternate_first
  = Ok [Tag "head" []
          [Tag "link" [("rel", AStr "stylesheet"); ("href", AStr "dark.css")] [];
           Tag "link" [("rel", AList ["stylesheet"]);
                       ("href", AStr "light.css")] []]].
Proof. reflexivity. Qed.

(** ** Documents that are rewritten without exception *)


Lemma no_bracket_spec (s : string) :
  no_bracket s = true <-> Py.has_char "[" s = false /\ Py.has_char "]" s = false.
Proof.
  unfold no_bracket. rewrite andb_true_iff, !negb_true_iff. reflexivity.
Qed.

















Section Completes.

Variable check : string -> res unit.











End Completes.


(** An alternate whose [rel] is the string and not the list of its items
    matches no search for [stylesheet]: the exchange raises. *)
Example swap_stylesheets_raises :
  swap_stylesheets [Tag "link" [("rel", AStr "stylesheet alternate")] []]
  = Raise (TypeError "'NoneType' object does not support item assignment").
Proof. reflexivity. Qed.

(** ** The duration on the index page *)

Lemma to_int_no_nil (z : Z) :
  Z.to_int z <> Decimal.Pos Decimal.Nil /\ Z.to_int z <> Decimal.Neg Decimal.Nil.
Proof.
  destruct z as [|p|p]; simpl; split; try discriminate; intros H; injection H;
    apply DecimalPos.Unsigned.to_uint_nonnil.
Qed.

Lemma string_of_Z_inj (n m : Z) :
  NilZero.string_of_int (Z.to_int n) = NilZero.string_of_int (Z.to_int m) ->
  n = m.
Proof.
  intros H. apply (f_equal NilZero.int_of_string) in H.
  destruct (to_int_no_nil n) as [Hn1 Hn2]. destruct (to_int_no_nil m) as [Hm1 Hm2].
  rewrite !NilZero.isi in H by assumption.
  injection H as H. apply DecimalZ.to_int_inj. exact H.
Qed.

Lemma not_in_seconds (s lit : string) :
  Py.endswith lit " seconds" = false -> lit <> s ++ " seconds".
Proof.
  intros H E. subst lit. rewrite endswith_app in H. discriminate.
Qed.

(** X16: [readable] tells any two durations apart: the words for one day
    and for one year are no number of seconds in decimal, and two numbers
    that differ are written differently. *)
Theorem readable_inj (n m : Z) : readable n = readable m -> n = m.
Proof.
  unfold readable.
  destruct (Z.eqb_spec n ONE_DAY_IN_SECONDS) as [->|Hn1];
    destruct (Z.eqb_spec m ONE_DAY_IN_SECONDS) as [->|Hm1]; try reflexivity.
  - destruct (Z.eqb_spec m ONE_YEAR_IN_SECONDS) as [->|Hm2]; [discriminate|].
    intros H. exfalso. exact (not_in_seconds _ "one day" eq_refl H).
  - destruct (Z.eqb_spec n ONE_YEAR_IN_SECONDS) as [->|Hn2]; [discriminate|].
    intros H. exfalso. symmetry in H. exact (not_in_seconds _ "one day" eq_refl H).
  - destruct (Z.eqb_spec n ONE_YEAR_IN_SECONDS) as [->|Hn2];
      destruct (Z.eqb_spec m ONE_YEAR_IN_SECONDS) as [->|Hm2]; try reflexivity.
    + intros H. exfalso. exact (not_in_seconds _ "one year" eq_refl H).
    + intros H. exfalso. symmetry in H.
      exact (not_in_seconds _ "one year" eq_refl H).
    + intros H. apply str_app_inv_tail in H. apply string_of_Z_inj. exact H.
Qed.

(** Witness of X16: one hour and one minute, in seconds. *)
Lemma readable_inj_sample :
  readable ONE_HOUR_IN_SECONDS <> readable ONE_MINUTE_IN_SECONDS.
Proof.
  intros H. pose proof (readable_inj _ _ H) as E. discriminate E.
Defined.

Example readable_default : readable DEFAULT_CACHE_EXPIRY = "one year".
Proof. reflexivity. Qed.

Example readable_hour : readable ONE_HOUR_IN_SECONDS = "3600 seconds".
Proof. reflexivity. Qed.

(** ** The redirection to the index *)

Section Redirect.

Variable CACHE_DIR : string.
Variable guess_extension : string -> option string.
Variable check_bracketed_host : string -> res unit.
Variable decode_utf8_replace : string -> string.
Variable parse_html : string -> res soup_t.
Variable str_soup : soup_t -> string.

(** What the [try] block returns is a page, a response or an error page. *)
Lemma proxy_try_no_redirect (net : string -> res http_response)
    (fs fs' : gmap string file) (now : Z) (url : string) (r : response) :
  proxy_try CACHE_DIR guess_extension check_bracketed_host decode_utf8_replace
    parse_html str_soup net fs now url = (Ok r, fs') ->
  r <> Redirect_index.
Proof.
  unfold proxy_try.
  destruct (negb (is_allowed url ALLOW_URLS)); [discriminate|].
  destruct (is_cached _ _ _ fs now url DEFAULT_CACHE_EXPIRY) as [c|e];
    [|discriminate].
  assert (Hfetch :
    match net url with
    | Ok response =>
        if negb (status response =? 200)%Z
        then (Ok (ErrorStatusPage url (status response)), fs)
        else
          match
            get_cache_path CACHE_DIR guess_extension check_bracketed_host url
              (Some (Py.lower (default "" (content_type_header response))))
          with
          | Ok cache_path =>
              if negb
                   (Py.contains
                      (Py.lower (default "" (content_type_header response)))
                      "text/html")
              then
                match read response with
                | Ok content =>
                    (Ok (Response content
                           (Py.lower (default "" (content_type_header response)))),
                     write_cache fs now cache_path content true)
                | Raise e => (Raise e, fs)
                end
              else
                match text response with
                | Ok html_content =>
                    match
                      rewrite_html check_bracketed_host parse_html str_soup
                        (Some html_content) url
                    with
                    | Ok processed_html =>
                        (Ok (Body processed_html),
                         write_cache fs now cache_path processed_html false)
                    | Raise e => (Raise e, fs)
                    end
                | Raise e => (Raise e, fs)
                end
          | Raise e => (Raise e, fs)
          end
    | Raise e => (Raise e, fs)
    end = (Ok r, fs') -> r <> Redirect_index).
  { destruct (net url) as [resp|e]; [|discriminate].
    destruct (negb (status resp =? 200)%Z);
      [intros H; injection H as <- _; discriminate|].
    destruct (get_cache_path _ _ _ url _) as [p|e]; [|discriminate].
    destruct (negb (Py.contains _ "text/html")).
    - destruct (read resp) as [content|e]; [|discriminate].
      intros H; injection H as <- _; discriminate.
    - destruct (text resp) as [html|e]; [|discriminate].
      destruct (rewrite_html _ _ _ (Some html) url) as [processed|e];
        [|discriminate].
      intros H; injection H as <- _; discriminate. }
  destruct c; [|exact Hfetch].
  destruct (get_cache_path _ _ _ url None) as [p|e]; [|discriminate].
  destruct (bool_decide (is_Some (fs !! p))); [|exact Hfetch].
  destruct (Py.endswith p ".html").
  - destruct (read_cache _ fs p false) as [content|e]; cbn [mbind res_bind];
      [|discriminate].
    intros H; injection H as <- _; discriminate.
  - destruct (read_cache _ fs p true) as [content|e]; cbn [mbind res_bind];
      [|discriminate].
    intros H; injection H as <- _; discriminate.
Qed.

(** X17: the route answers with the redirection to the index when the
    request has no [url] argument or an empty one, and in no other case. *)
Theorem redirect_iff (net : string -> res http_response)
    (fs : gmap string file) (now : Z) (url_arg : option string) :
  fst (proxy_full_async CACHE_DIR guess_extension check_bracketed_host
         decode_utf8_replace parse_html str_soup net fs now url_arg)
  = Redirect_index
  <-> url_arg = None \/ url_arg = Some EmptyString.
Proof.
  split.
  - destruct url_arg as [u|]; [|auto]. unfold proxy_full_async.
    destruct (Py.is_empty u) eqn:He.
    + apply is_empty_spec in He. subst u. auto.
    + destruct (proxy_try _ _ _ _ _ _ net fs now _) as [[r|e] fs'] eqn:E;
        [|discriminate].
      cbn [fst]. intros ->. exfalso.
      exact (proxy_try_no_redirect _ _ _ _ _ _ E eq_refl).
  - intros [->| ->]; reflexivity.
Qed.

End Redirect.
